(** * EF100 ethtool ring-parameter callbacks

    A shallow embedding of [ef100_ethtool_get_ringparam] and
    [ef100_ethtool_set_ringparam] from
    [drivers/net/ethernet/sfc/ef100_ethtool.c], with the properties of
    the ring-size negotiation stated and proved over it.

    Unsigned C values ([__u32], [unsigned], [unsigned long], [u16]) are
    numbers in [N]; the [int] status codes are in [Z].  Every theorem
    below holds for all naturals, hence for the machine ranges. *)

From Stdlib Require Import NArith ZArith Bool List String Lia.
Import ListNotations.

Local Open Scope string_scope.
Local Open Scope N_scope.

(** ** Kernel helpers used by the callbacks *)

Module Kernel.

(** [linux/log2.h]: [n != 0 && ((n & (n - 1)) == 0)]. *)
Definition is_power_of_2 (n : N) : bool :=
  negb (n =? 0) && (N.land n (n - 1) =? 0).

(** [fls_long]: position of the last set bit, counted from 1;
    0 for 0. *)
Definition fls_long (n : N) : N :=
  if n =? 0 then 0 else N.log2 n + 1.

(** [linux/log2.h]: [1UL << (fls_long(n) - 1)]. *)
Definition rounddown_pow_of_two (n : N) : N :=
  N.shiftl 1 (fls_long n - 1).

(** errno values. *)
Definition EBUSY : Z := 16%Z.
Definition EINVAL : Z := 22%Z.
Definition ERANGE : Z := 34%Z.
Definition EOPNOTSUPP : Z := 95%Z.

(** Conversion of a value to the 32-bit field it is stored in. *)
Definition to_u32 (n : N) : N := n mod 2 ^ 32.

End Kernel.

Import Kernel.

(** ** Data model *)

(** The fields of [struct efx_nic] the two callbacks read or write.
    [check_disabled_rc] is what [efx_check_disabled(efx)] returns for
    the device (0 when the device is usable). *)
Record efx_nic : Type := mk_efx_nic {
  rxq_entries : N;
  txq_entries : N;
  supported_bitmap : N;
  guaranteed_bitmap : N;
  open_count : N;
  check_disabled_rc : Z
}.

(** [struct net_device]: the private area and the bit
    [netif_running] tests. *)
Record net_device : Type := mk_net_device {
  priv : efx_nic;
  link_state_start : bool
}.

(** [struct ethtool_ringparam]. *)
Record ethtool_ringparam : Type := mk_ringparam {
  rx_max_pending : N;
  rx_mini_max_pending : N;
  rx_jumbo_max_pending : N;
  tx_max_pending : N;
  rx_pending : N;
  rx_mini_pending : N;
  rx_jumbo_pending : N;
  tx_pending : N
}.

(** The preprocessor symbols that decide whether the busy check is
    compiled. *)
Record build_config : Type := mk_build_config {
  EFX_NOT_UPSTREAM : bool;
  SFC_DRIVERLINK_IS_MODULE : bool;
  CONFIG_AUXILIARY_BUS : bool
}.

Definition busy_check_compiled (cfg : build_config) : bool :=
  EFX_NOT_UPSTREAM cfg &&
  (SFC_DRIVERLINK_IS_MODULE cfg || CONFIG_AUXILIARY_BUS cfg).

(** What a call does besides returning: log lines and calls into the
    network core, newest first. *)
Inductive event : Type :=
| NetifErr (fmt : string) (args : list N)
| DevClose
| DevOpen.

Record world : Type := mk_world {
  net_dev : net_device;
  trace : list event
}.

(** The network core's [dev_close] and [dev_open], which rebuild the
    datapath; [dev_open] also yields a status code. *)
Class NetCore : Type := {
  dev_close_fn : net_device -> net_device;
  dev_open_fn : net_device -> net_device * Z
}.

Definition efx_netdev_priv (d : net_device) : efx_nic := priv d.
Definition efx_check_disabled (efx : efx_nic) : Z := check_disabled_rc efx.
Definition netif_running (d : net_device) : bool := link_state_start d.

Definition set_rxq_entries (v : N) (efx : efx_nic) : efx_nic :=
  mk_efx_nic v (txq_entries efx) (supported_bitmap efx)
             (guaranteed_bitmap efx) (open_count efx) (check_disabled_rc efx).

Definition set_txq_entries (v : N) (efx : efx_nic) : efx_nic :=
  mk_efx_nic (rxq_entries efx) v (supported_bitmap efx)
             (guaranteed_bitmap efx) (open_count efx) (check_disabled_rc efx).

Definition with_priv (f : efx_nic -> efx_nic) (d : net_device) : net_device :=
  mk_net_device (f (priv d)) (link_state_start d).

(** ** A state monad over [world] *)

Definition M (A : Type) : Type := world -> A * world.

Definition ret {A} (a : A) : M A := fun w => (a, w).

Definition bind {A B} (m : M A) (k : A -> M B) : M B :=
  fun w => let (a, w') := m w in k a w'.

Declare Scope drv_scope.
Delimit Scope drv_scope with drv.
Notation "x <- m ;; k" := (bind m (fun x => k))
  (at level 61, m at next level, right associativity) : drv_scope.
Notation "m ;;; k" := (bind m (fun _ => k))
  (at level 61, right associativity) : drv_scope.

Definition get_dev : M net_device := fun w => (net_dev w, w).

Definition emit (e : event) : M unit :=
  fun w => (tt, mk_world (net_dev w) (e :: trace w)).

Definition netif_err (fmt : string) (args : list N) : M unit :=
  emit (NetifErr fmt args).

Definition modify_efx (f : efx_nic -> efx_nic) : M unit :=
  fun w => (tt, mk_world (with_priv f (net_dev w)) (trace w)).

Section Collaborators.
Context {core : NetCore}.

Definition dev_close : M unit :=
  fun w => (tt, mk_world (dev_close_fn (net_dev w)) (DevClose :: trace w)).

Definition dev_open : M Z :=
  fun w => let (d, rc) := dev_open_fn (net_dev w) in
           (rc, mk_world d (DevOpen :: trace w)).
End Collaborators.

(** ** The callbacks *)

Definition EFX_EF100_MAX_DMAQ_SIZE : N := 16384.

Definition ef100_ethtool_get_ringparam (d : net_device)
    (ring : ethtool_ringparam) : ethtool_ringparam :=
  let efx := efx_netdev_priv d in
  let driver_bitmap :=
    N.lor EFX_EF100_MAX_DMAQ_SIZE (EFX_EF100_MAX_DMAQ_SIZE - 1) in
  let driver_bitmap := N.land driver_bitmap (guaranteed_bitmap efx) in
  let max_size :=
    if negb (driver_bitmap =? 0) then rounddown_pow_of_two driver_bitmap
    else 0 in
  mk_ringparam (to_u32 max_size)
               (rx_mini_max_pending ring)
               (rx_jumbo_max_pending ring)
               (to_u32 max_size)
               (rxq_entries efx)
               (rx_mini_pending ring)
               (rx_jumbo_pending ring)
               (txq_entries efx).

Definition msg_not_pow2 : string :=
  "ring sizes that are not pow of 2, not supported".
Definition newline : string := String (Ascii.ascii_of_N 10) EmptyString.
Definition msg_not_supported : string :=
  "ring size changes not supported" ++ newline.
Definition msg_rx_range : string := "unsupported ring size for RX".
Definition msg_tx_range : string := "unsupported ring sizes for TX".
Definition msg_busy : string :=
  "unable to set ring sizes. device in use by %hu clients" ++ newline.

Definition is_up_of (d : net_device) : bool :=
  (efx_check_disabled (efx_netdev_priv d) =? 0)%Z && netif_running d.

Section SetRingparam.
Context {core : NetCore}.
Variable cfg : build_config.

Local Open Scope drv_scope.

Definition ef100_ethtool_set_ringparam (ring : ethtool_ringparam) : M Z :=
  d <- get_dev ;;
  let efx := efx_netdev_priv d in
  let is_up := is_up_of d in
  if negb (rx_mini_pending ring =? 0) || negb (rx_jumbo_pending ring =? 0)
  then ret (- EINVAL)%Z
  else if negb (is_power_of_2 (rx_pending ring)) ||
          negb (is_power_of_2 (tx_pending ring))
  then netif_err msg_not_pow2 [] ;;; ret (- EINVAL)%Z
  else if (rx_pending ring =? rxq_entries efx) &&
          (tx_pending ring =? txq_entries efx)
  then ret 0%Z
  else if supported_bitmap efx =? 0
  then netif_err msg_not_supported [] ;;; ret (- EOPNOTSUPP)%Z
  else if negb (rx_pending ring =? 0) &&
          (N.land (guaranteed_bitmap efx) (rx_pending ring) =? 0)
  then netif_err msg_rx_range [] ;;; ret (- ERANGE)%Z
  else if negb (tx_pending ring =? 0) &&
          (N.land (guaranteed_bitmap efx) (tx_pending ring) =? 0)
  then netif_err msg_tx_range [] ;;; ret (- ERANGE)%Z
  else if busy_check_compiled cfg &&
          (Z.b2z is_up <? Z.of_N (open_count efx))%Z
  then netif_err msg_busy [open_count efx] ;;; ret (- EBUSY)%Z
  else
    modify_efx (set_rxq_entries (rx_pending ring)) ;;;
    modify_efx (set_txq_entries (tx_pending ring)) ;;;
    if is_up
    then dev_close ;;; rc <- dev_open ;; ret rc
    else ret 0%Z.

End SetRingparam.

(** ** Vocabulary of the properties *)

(** A ring size the query may advertise: a power of two, no larger
    than the DMA queue ceiling, whose bit is in the bitmap. *)
Definition offered (bitmap p : N) : bool :=
  is_power_of_2 p && (p <=? EFX_EF100_MAX_DMAQ_SIZE) &&
  negb (N.land bitmap p =? 0).

Definition ring_config (w : world) : N * N :=
  (rxq_entries (priv (net_dev w)), txq_entries (priv (net_dev w))).

Definition is_log (e : event) : bool :=
  match e with
  | NetifErr _ _ => true
  | DevClose | DevOpen => false
  end.

(** Between [w] and [w'] only log lines were produced: neither
    [dev_close] nor [dev_open] was called. *)
Definition no_restart (w w' : world) : Prop :=
  exists log, trace w' = (log ++ trace w)%list /\ forallb is_log log = true.

(** The world after a rejection that logs [fmt]. *)
Definition logged (fmt : string) (args : list N) (w : world) : world :=
  mk_world (net_dev w) (NetifErr fmt args :: trace w).

(** The world once both ring sizes of the request are stored. *)
Definition stored (ring : ethtool_ringparam) (w : world) : world :=
  mk_world
    (with_priv (set_txq_entries (tx_pending ring))
       (with_priv (set_rxq_entries (rx_pending ring)) (net_dev w)))
    (trace w).

(** A close followed by an open, with the open's status. *)
Definition restart {core : NetCore} (w : world) : Z * world :=
  let closed := dev_close_fn (net_dev w) in
  (snd (dev_open_fn closed),
   mk_world (fst (dev_open_fn closed)) (DevOpen :: DevClose :: trace w)).

Definition keeps_rings (f : net_device -> net_device) : Prop :=
  forall d, rxq_entries (priv (f d)) = rxq_entries (priv d) /\
            txq_entries (priv (f d)) = txq_entries (priv d).

Definition validation_code (rc : Z) : Prop :=
  (rc = - EINVAL \/ rc = - EOPNOTSUPP \/ rc = - ERANGE \/ rc = - EBUSY)%Z.

(** The outcome of the busy check on a device. *)
Definition busy (cfg : build_config) (d : net_device) : bool :=
  busy_check_compiled cfg &&
  (Z.b2z (is_up_of d) <? Z.of_N (open_count (efx_netdev_priv d)))%Z.

(** The request passes the checks that precede the test of
    [supported_bitmap]. *)
Definition well_formed_change (ring : ethtool_ringparam) (d : net_device)
  : Prop :=
  rx_mini_pending ring = 0 /\ rx_jumbo_pending ring = 0 /\
  is_power_of_2 (rx_pending ring) = true /\
  is_power_of_2 (tx_pending ring) = true /\
  ~ (rx_pending ring = rxq_entries (priv d) /\
     tx_pending ring = txq_entries (priv d)).

(** ** The update without its zero-size guards

    The same function with the tests [ring->rx_pending &&] and
    [ring->tx_pending &&] dropped from the two membership checks; it is
    compared with the source function to show the guards never decide. *)

Section Unguarded.
Context {core : NetCore}.
Variable cfg : build_config.

Local Open Scope drv_scope.

Definition set_ringparam_unguarded (ring : ethtool_ringparam) : M Z :=
  d <- get_dev ;;
  let efx := efx_netdev_priv d in
  let is_up := is_up_of d in
  if negb (rx_mini_pending ring =? 0) || negb (rx_jumbo_pending ring =? 0)
  then ret (- EINVAL)%Z
  else if negb (is_power_of_2 (rx_pending ring)) ||
          negb (is_power_of_2 (tx_pending ring))
  then netif_err msg_not_pow2 [] ;;; ret (- EINVAL)%Z
  else if (rx_pending ring =? rxq_entries efx) &&
          (tx_pending ring =? txq_entries efx)
  then ret 0%Z
  else if supported_bitmap efx =? 0
  then netif_err msg_not_supported [] ;;; ret (- EOPNOTSUPP)%Z
  else if N.land (guaranteed_bitmap efx) (rx_pending ring) =? 0
  then netif_err msg_rx_range [] ;;; ret (- ERANGE)%Z
  else if N.land (guaranteed_bitmap efx) (tx_pending ring) =? 0
  then netif_err msg_tx_range [] ;;; ret (- ERANGE)%Z
  else if busy_check_compiled cfg &&
          (Z.b2z is_up <? Z.of_N (open_count efx))%Z
  then netif_err msg_busy [open_count efx] ;;; ret (- EBUSY)%Z
  else
    modify_efx (set_rxq_entries (rx_pending ring)) ;;;
    modify_efx (set_txq_entries (tx_pending ring)) ;;;
    if is_up
    then dev_close ;;; rc <- dev_open ;; ret rc
    else ret 0%Z.

End Unguarded.

(** ** Sample devices, requests and network cores *)

Module Sample.

(** A network core whose [dev_open] succeeds. *)
Definition core_ok : NetCore :=
  {| dev_close_fn := fun d => mk_net_device (priv d) false;
     dev_open_fn := fun d => (mk_net_device (priv d) true, 0%Z) |}.

(** A network core whose [dev_open] fails with [rc] and leaves the
    interface down. *)
Definition core_open_fails (rc : Z) : NetCore :=
  {| dev_close_fn := fun d => mk_net_device (priv d) false;
     dev_open_fn := fun d => (d, rc) |}.

Definition ENOMEM : Z := 12%Z.

(** Builds with and without the busy check. *)
Definition cfg_auxbus : build_config := mk_build_config true false true.
Definition cfg_upstream : build_config := mk_build_config false false false.

(** Guaranteed sizes 256, 1024 and 4096. *)
Definition sizes : N := N.lor 256 (N.lor 1024 4096).

Definition nic (supported opens : N) : efx_nic :=
  mk_efx_nic 512 512 supported sizes opens 0%Z.

(** Interface up, the net device its only user. *)
Definition w_up : world := mk_world (mk_net_device (nic sizes 1) true) [].
(** Interface down, no user. *)
Definition w_down : world := mk_world (mk_net_device (nic sizes 0) false) [].
(** Interface down, one client attached. *)
Definition w_down_client : world :=
  mk_world (mk_net_device (nic sizes 1) false) [].
(** Interface up, the net device and one client. *)
Definition w_up_client : world :=
  mk_world (mk_net_device (nic sizes 2) true) [].
(** Ring-size changes not supported. *)
Definition w_fixed : world := mk_world (mk_net_device (nic 0 0) false) [].

Definition request (rx tx : N) : ethtool_ringparam :=
  mk_ringparam 0 0 0 0 rx 0 0 tx.
Definition request_mini (rx tx mini : N) : ethtool_ringparam :=
  mk_ringparam 0 0 0 0 rx mini 0 tx.

End Sample.

(** ** Vocabulary for the query and the update taken together *)

(** A size the membership check of the update lets through: an exact
    power of two whose bit is in the bitmap. *)
Definition size_guaranteed (g n : N) : bool :=
  is_power_of_2 n && negb (N.land g n =? 0).

(** Both stored ring sizes are guaranteed sizes of the device. *)
Definition rings_guaranteed (d : net_device) : bool :=
  size_guaranteed (guaranteed_bitmap (priv d)) (rxq_entries (priv d)) &&
  size_guaranteed (guaranteed_bitmap (priv d)) (txq_entries (priv d)).

Definition keeps_bitmap (f : net_device -> net_device) : Prop :=
  forall d, guaranteed_bitmap (priv (f d)) = guaranteed_bitmap (priv d).

(** The close and the open of the network core leave the ring sizes
    alone. *)
Definition core_keeps_rings (core : NetCore) : Prop :=
  keeps_rings dev_close_fn /\ keeps_rings (fun d => fst (dev_open_fn d)).

(** They leave the guaranteed bitmap alone as well. *)
Definition core_keeps_bitmap (core : NetCore) : Prop :=
  keeps_bitmap dev_close_fn /\ keeps_bitmap (fun d => fst (dev_open_fn d)).

(** Everything of the device but the two ring sizes is the same. *)
Definition same_but_rings (d d' : net_device) : Prop :=
  supported_bitmap (priv d') = supported_bitmap (priv d) /\
  guaranteed_bitmap (priv d') = guaranteed_bitmap (priv d) /\
  open_count (priv d') = open_count (priv d) /\
  check_disabled_rc (priv d') = check_disabled_rc (priv d) /\
  link_state_start d' = link_state_start d.

(** The three ways a call of the update ends: refused at a check with
    the device as it was and at most one line logged; left alone
    because the request is the current configuration; or applied, with
    a restart when the interface is up. *)
Inductive outcome {core : NetCore} (cfg : build_config)
    (ring : ethtool_ringparam) (w : world) : Z * world -> Prop :=
| Refused (rc : Z) (w' : world) (log : list event) :
    rc <> 0%Z -> validation_code rc ->
    net_dev w' = net_dev w ->
    trace w' = (log ++ trace w)%list ->
    log = [] \/ (exists fmt args, log = [NetifErr fmt args]) ->
    outcome cfg ring w (rc, w')
| Unchanged :
    rx_mini_pending ring = 0 -> rx_jumbo_pending ring = 0 ->
    is_power_of_2 (rx_pending ring) = true ->
    is_power_of_2 (tx_pending ring) = true ->
    rx_pending ring = rxq_entries (priv (net_dev w)) ->
    tx_pending ring = txq_entries (priv (net_dev w)) ->
    outcome cfg ring w (0%Z, w)
| Applied :
    well_formed_change ring (net_dev w) ->
    supported_bitmap (priv (net_dev w)) <> 0 ->
    size_guaranteed (guaranteed_bitmap (priv (net_dev w))) (rx_pending ring)
    = true ->
    size_guaranteed (guaranteed_bitmap (priv (net_dev w))) (tx_pending ring)
    = true ->
    busy cfg (net_dev w) = false ->
    outcome cfg ring w
      (if is_up_of (net_dev w) then restart (stored ring w)
       else (0%Z, stored ring w)).

(** A request for the same size on both rings, legacy fields zero. *)
Definition both_rings (n : N) : ethtool_ringparam :=
  mk_ringparam 0 0 0 0 n 0 0 n.

(** ** The operations table *)

Module Ops.

(** The compatibility symbols the initialiser of [ef100_ethtool_ops]
    tests. *)
Record compat_config : Type := mk_compat_config {
  EFX_USE_KCOMPAT : bool;
  EFX_HAVE_ETHTOOL_RXFH_PARAM : bool;
  EFX_HAVE_CAP_RSS_CTX_SUPPORTED : bool;
  EFX_HAVE_ETHTOOL_LINKSETTINGS : bool;
  EFX_HAVE_ETHTOOL_FECPARAM : bool;
  EFX_HAVE_ETHTOOL_SET_PHYS_ID : bool;
  EFX_USE_DEVLINK : bool;
  EFX_NEED_ETHTOOL_FLASH_DEVICE : bool;
  EFX_HAVE_ETHTOOL_GET_RXFH_INDIR_SIZE : bool;
  EFX_HAVE_ETHTOOL_GET_RXFH_KEY_SIZE : bool;
  EFX_HAVE_CONFIGURABLE_RSS_HASH : bool;
  EFX_HAVE_ETHTOOL_GET_RXFH : bool;
  EFX_HAVE_ETHTOOL_GET_RXFH_INDIR : bool;
  EFX_HAVE_ETHTOOL_RXFH_CONTEXT : bool;
  EFX_HAVE_ETHTOOL_GMODULEEEPROM : bool
}.

(** What a designated initialiser assigns: a handler, by name, or a
    flag. *)
Inductive initializer : Type :=
| Handler (name : string)
| Flag (value : bool).

Definition entry : Type := (string * initializer)%type.

Definition op (slot handler : string) : entry := (slot, Handler handler).

(** The initialisers kept by [#if c ... #endif]. *)
Definition when (c : bool) (l : list entry) : list entry :=
  if c then l else [].

Definition ef100_ethtool_ops (c : compat_config) : list entry :=
  let k := EFX_USE_KCOMPAT c in
  (when (negb k || (EFX_HAVE_ETHTOOL_RXFH_PARAM c &&
                    EFX_HAVE_CAP_RSS_CTX_SUPPORTED c))
     [("cap_rss_ctx_supported", Flag true)] ++
   [op "get_drvinfo" "ef100_ethtool_get_drvinfo";
    op "get_msglevel" "efx_ethtool_get_msglevel";
    op "set_msglevel" "efx_ethtool_set_msglevel";
    op "nway_reset" "efx_ethtool_nway_reset";
    op "get_pauseparam" "efx_ethtool_get_pauseparam";
    op "set_pauseparam" "efx_ethtool_set_pauseparam";
    op "get_sset_count" "efx_ethtool_get_sset_count";
    op "get_priv_flags" "efx_ethtool_get_priv_flags";
    op "set_priv_flags" "efx_ethtool_set_priv_flags";
    op "self_test" "efx_ethtool_self_test";
    op "get_strings" "efx_ethtool_get_strings"] ++
   (if negb k || EFX_HAVE_ETHTOOL_LINKSETTINGS c
    then [op "get_link_ksettings" "efx_ethtool_get_link_ksettings";
          op "set_link_ksettings" "efx_ethtool_set_link_ksettings"]
    else [op "get_settings" "efx_ethtool_get_settings";
          op "set_settings" "efx_ethtool_set_settings"]) ++
   [op "get_link" "ethtool_op_get_link";
    op "get_ringparam" "ef100_ethtool_get_ringparam";
    op "set_ringparam" "ef100_ethtool_set_ringparam"] ++
   when (negb k || EFX_HAVE_ETHTOOL_FECPARAM c)
     [op "get_fecparam" "efx_ethtool_get_fecparam";
      op "set_fecparam" "efx_ethtool_set_fecparam"] ++
   (if negb k || EFX_HAVE_ETHTOOL_SET_PHYS_ID c
    then [op "set_phys_id" "efx_ethtool_phys_id"]
    else [op "phys_id" "efx_ethtool_phys_id_loop"]) ++
   [op "get_ethtool_stats" "efx_ethtool_get_stats"] ++
   (if negb k
    then [op "get_rxnfc" "efx_ethtool_get_rxnfc";
          op "set_rxnfc" "efx_ethtool_set_rxnfc"]
    else [op "get_rxnfc" "efx_ethtool_get_rxnfc_wrapper";
          op "set_rxnfc" "efx_ethtool_set_rxnfc_wrapper"]) ++
   when (k && (negb (EFX_USE_DEVLINK c) || EFX_NEED_ETHTOOL_FLASH_DEVICE c))
     [op "flash_device" "efx_ethtool_flash_device"] ++
   [op "reset" "efx_ethtool_reset"] ++
   when (negb k || EFX_HAVE_ETHTOOL_GET_RXFH_INDIR_SIZE c)
     [op "get_rxfh_indir_size" "efx_ethtool_get_rxfh_indir_size"] ++
   when (negb k || EFX_HAVE_ETHTOOL_GET_RXFH_KEY_SIZE c)
     [op "get_rxfh_key_size" "efx_ethtool_get_rxfh_key_size"] ++
   (if negb k || EFX_HAVE_CONFIGURABLE_RSS_HASH c
    then [op "get_rxfh" "efx_ethtool_get_rxfh";
          op "set_rxfh" "efx_ethtool_set_rxfh"]
    else if EFX_HAVE_ETHTOOL_GET_RXFH c
    then [op "get_rxfh" "efx_ethtool_get_rxfh_no_hfunc";
          op "set_rxfh" "efx_ethtool_set_rxfh_no_hfunc"]
    else if EFX_HAVE_ETHTOOL_GET_RXFH_INDIR c
    then [op "get_rxfh_indir" "efx_ethtool_get_rxfh_indir";
          op "set_rxfh_indir" "efx_ethtool_set_rxfh_indir"]
    else []) ++
   when (k && EFX_HAVE_ETHTOOL_RXFH_CONTEXT c)
     [op "get_rxfh_context" "efx_ethtool_get_rxfh_context";
      op "set_rxfh_context" "efx_ethtool_set_rxfh_context"] ++
   when (negb k || EFX_HAVE_ETHTOOL_GMODULEEEPROM c)
     [op "get_module_info" "efx_ethtool_get_module_info";
      op "get_module_eeprom" "efx_ethtool_get_module_eeprom"] ++
   [op "get_channels" "efx_ethtool_get_channels";
    op "set_channels" "efx_ethtool_set_channels"])%list.

(** The slots a build initialises, in order. *)
Definition slots (c : compat_config) : list string :=
  map fst (ef100_ethtool_ops c).

(** What a build assigns to a slot; a slot left out stays null. *)
Definition assigned (c : compat_config) (slot : string) : option initializer :=
  match find (fun e => String.eqb (fst e) slot) (ef100_ethtool_ops c) with
  | Some e => Some (snd e)
  | None => None
  end.

Definition wired (c : compat_config) (slot : string) : bool :=
  existsb (String.eqb slot) (slots c).

Fixpoint nodupb (l : list string) : bool :=
  match l with
  | [] => true
  | x :: r => negb (existsb (String.eqb x) r) && nodupb r
  end.

(** Every slot the initialiser can mention, once each, in the order of
    the source text. *)
Definition slot_order : list string :=
  ["cap_rss_ctx_supported"; "get_drvinfo"; "get_msglevel"; "set_msglevel";
   "nway_reset"; "get_pauseparam"; "set_pauseparam"; "get_sset_count";
   "get_priv_flags"; "set_priv_flags"; "self_test"; "get_strings";
   "get_link_ksettings"; "set_link_ksettings"; "get_settings";
   "set_settings"; "get_link"; "get_ringparam"; "set_ringparam";
   "get_fecparam"; "set_fecparam"; "set_phys_id"; "phys_id";
   "get_ethtool_stats"; "get_rxnfc"; "set_rxnfc"; "flash_device"; "reset";
   "get_rxfh_indir_size"; "get_rxfh_key_size"; "get_rxfh"; "set_rxfh";
   "get_rxfh_indir"; "set_rxfh_indir"; "get_rxfh_context";
   "set_rxfh_context"; "get_module_info"; "get_module_eeprom";
   "get_channels"; "set_channels"].

(** [l] is [m] with some elements left out. *)
Fixpoint subseqb (l m : list string) : bool :=
  match l, m with
  | [], _ => true
  | _ :: _, [] => false
  | x :: l', y :: m' =>
      if String.eqb x y then subseqb l' m' else subseqb l m'
  end.

(** The slots whose handler is a function of this file. *)
Definition own_slots (c : compat_config) : list string :=
  map fst
    (filter
       (fun e => match snd e with
                 | Handler h => String.prefix "ef100_" h
                 | Flag _ => false
                 end)
       (ef100_ethtool_ops c)).

(** The build of the driver as it goes upstream: no compatibility
    layer. *)
Definition upstream : compat_config :=
  mk_compat_config false false false false false false false false
                   false false false false false false false.

End Ops.

(** ** More sample devices *)

Module Wide.

(** Guaranteed sizes 256, 1024, 4096 and 32768: one above the DMA
    queue ceiling. *)
Definition sizes : N := N.lor Sample.sizes 32768.

Definition w_down : world :=
  mk_world (mk_net_device (mk_efx_nic 512 512 sizes sizes 0 0%Z) false) [].

(** A device whose current sizes are guaranteed ones. *)
Definition w_settled : world :=
  mk_world
    (mk_net_device (mk_efx_nic 256 1024 Sample.sizes Sample.sizes 1 0%Z) true)
    [].

End Wide.

(** ** Properties of the kernel helpers *)

Lemma land_pow2_testbit (g k : N) :
  N.land g (2 ^ k) = if N.testbit g k then 2 ^ k else 0.
Proof.
  apply N.bits_inj. intro i.
  rewrite N.land_spec.
  destruct (N.eq_dec i k) as [->|Hne].
  - rewrite N.pow2_bits_true.
    destruct (N.testbit g k);
      [rewrite N.pow2_bits_true | rewrite N.bits_0]; reflexivity.
  - rewrite (N.pow2_bits_false k i) by congruence.
    rewrite andb_false_r.
    destruct (N.testbit g k);
      [rewrite N.pow2_bits_false by congruence | rewrite N.bits_0];
      reflexivity.
Qed.

Lemma pow2_nonzero (k : N) : 2 ^ k <> 0.
Proof. apply N.pow_nonzero. discriminate. Qed.

Lemma is_power_of_2_pow2 (k : N) : is_power_of_2 (2 ^ k) = true.
Proof.
  unfold is_power_of_2.
  pose proof (pow2_nonzero k) as H.
  apply andb_true_iff; split.
  - apply negb_true_iff, N.eqb_neq, H.
  - apply N.eqb_eq.
    replace (2 ^ k - 1) with (N.ones k) by (rewrite N.ones_equiv; lia).
    rewrite N.land_ones. apply N.Div0.mod_same.
Qed.

Lemma is_power_of_2_log2 (n : N) :
  is_power_of_2 n = true -> n = 2 ^ N.log2 n.
Proof.
  unfold is_power_of_2. intro H.
  apply andb_true_iff in H. destruct H as [Hnz Hland].
  apply negb_true_iff, N.eqb_neq in Hnz. apply N.eqb_eq in Hland.
  assert (Hpos : 0 < n) by lia.
  destruct (N.log2_spec n Hpos) as [Hlo Hhi].
  destruct (N.eq_dec n (2 ^ N.log2 n)) as [E|E]; [exact E|exfalso].
  assert (Hpred : N.log2 (n - 1) = N.log2 n).
  { apply N.log2_unique; [lia|].
    rewrite N.pow_succ_r' in *. lia. }
  assert (Hbit : N.testbit (N.land n (n - 1)) (N.log2 n) = true).
  { rewrite N.land_spec. rewrite N.bit_log2 by lia.
    rewrite <- Hpred. rewrite N.bit_log2; [reflexivity|lia]. }
  rewrite Hland, N.bits_0 in Hbit. discriminate.
Qed.

Lemma is_power_of_2_iff (n : N) :
  is_power_of_2 n = true <-> exists k, n = 2 ^ k.
Proof.
  split.
  - intro H. exists (N.log2 n). now apply is_power_of_2_log2.
  - intros [k ->]. apply is_power_of_2_pow2.
Qed.

Lemma is_power_of_2_zero : is_power_of_2 0 = false.
Proof. reflexivity. Qed.

Lemma rounddown_pow_of_two_log2 (n : N) :
  n <> 0 -> rounddown_pow_of_two n = 2 ^ N.log2 n.
Proof.
  intro H. unfold rounddown_pow_of_two, fls_long.
  apply N.eqb_neq in H. rewrite H.
  rewrite N.shiftl_1_l. f_equal. lia.
Qed.

(** ** The query *)

Lemma driver_mask_ones :
  N.lor EFX_EF100_MAX_DMAQ_SIZE (EFX_EF100_MAX_DMAQ_SIZE - 1) = N.ones 15.
Proof. reflexivity. Qed.

Lemma offered_inv (g p : N) :
  offered g p = true ->
  exists k, p = 2 ^ k /\ k <= 14 /\ N.testbit g k = true.
Proof.
  unfold offered. intro H.
  apply andb_true_iff in H. destruct H as [H Hbit].
  apply andb_true_iff in H. destruct H as [Hpow Hle].
  apply N.leb_le in Hle.
  apply negb_true_iff, N.eqb_neq in Hbit.
  apply is_power_of_2_log2 in Hpow.
  exists (N.log2 p). split; [exact Hpow|].
  rewrite Hpow in Hbit, Hle. rewrite land_pow2_testbit in Hbit.
  split.
  - change EFX_EF100_MAX_DMAQ_SIZE with (2 ^ 14) in Hle.
    destruct (N.le_gt_cases (N.log2 p) 14) as [L|L]; [exact L|exfalso].
    apply (N.pow_lt_mono_r 2) in L; lia.
  - destruct (N.testbit g (N.log2 p)); [reflexivity|congruence].
Qed.

Lemma offered_pow2 (g k : N) :
  k <= 14 -> N.testbit g k = true -> offered g (2 ^ k) = true.
Proof.
  intros Hk Hbit. unfold offered.
  rewrite is_power_of_2_pow2, land_pow2_testbit, Hbit. simpl.
  apply andb_true_iff; split.
  - apply N.leb_le. change EFX_EF100_MAX_DMAQ_SIZE with (2 ^ 14).
    apply N.pow_le_mono_r; [discriminate|exact Hk].
  - apply negb_true_iff, N.eqb_neq, pow2_nonzero.
Qed.

(** C2: the query reports the same maximum for RX and TX, the current
    ring sizes as the pending ones, and as maximum the largest power of
    two that is at most 16384 and has its bit in the guaranteed bitmap,
    or 0 when no such power of two exists. *)
Theorem get_ringparam_reports (d : net_device) (ring : ethtool_ringparam) :
  let r := ef100_ethtool_get_ringparam d ring in
  let g := guaranteed_bitmap (priv d) in
  rx_max_pending r = tx_max_pending r /\
  rx_pending r = rxq_entries (priv d) /\
  tx_pending r = txq_entries (priv d) /\
  ((offered g (rx_max_pending r) = true /\
    forall p, offered g p = true -> p <= rx_max_pending r) \/
   (rx_max_pending r = 0 /\ forall p, offered g p = false)).
Proof.
  cbv zeta. unfold ef100_ethtool_get_ringparam, efx_netdev_priv.
  cbn [rx_max_pending tx_max_pending rx_pending tx_pending].
  repeat (split; [reflexivity|]).
  rewrite driver_mask_ones.
  set (g := guaranteed_bitmap (priv d)).
  set (m := N.land (N.ones 15) g).
  assert (Hm : forall k, N.testbit m k = true <->
                         k <= 14 /\ N.testbit g k = true).
  { intro k. unfold m. rewrite N.land_spec, andb_true_iff.
    destruct (N.le_gt_cases k 14) as [L|L].
    - rewrite N.ones_spec_low by lia. tauto.
    - rewrite N.ones_spec_high by lia. split; [intros [? _]|]; [discriminate|lia]. }
  destruct (N.eqb_spec m 0) as [E|E]; cbn [negb].
  - right. split; [reflexivity|].
    intro p. destruct (offered g p) eqn:Hp; [exfalso|reflexivity].
    apply offered_inv in Hp. destruct Hp as (k & _ & Hk & Hbit).
    assert (N.testbit m k = true) by (apply Hm; tauto).
    rewrite E, N.bits_0 in H. discriminate.
  - left. rewrite rounddown_pow_of_two_log2 by exact E.
    assert (Htop : N.testbit m (N.log2 m) = true) by (apply N.bit_log2, E).
    apply Hm in Htop. destruct Htop as [Hle Hbit].
    assert (Hsmall : to_u32 (2 ^ N.log2 m) = 2 ^ N.log2 m).
    { unfold to_u32. apply N.mod_small.
      apply N.le_lt_trans with (2 ^ 14); [|reflexivity].
      apply N.pow_le_mono_r; [discriminate|exact Hle]. }
    rewrite Hsmall. split.
    + now apply offered_pow2.
    + intros p Hp. apply offered_inv in Hp.
      destruct Hp as (k & -> & Hk & Hkbit).
      apply N.pow_le_mono_r; [discriminate|].
      destruct (N.le_gt_cases k (N.log2 m)) as [L|L]; [exact L|exfalso].
      apply N.bits_above_log2 in L.
      assert (N.testbit m k = true) by (apply Hm; tauto).
      congruence.
Qed.

(** ** The update as a decision list *)

Section SetRingparamFacts.
Context {core : NetCore}.
Variable cfg : build_config.

(** The monadic code, with the monad unfolded. *)
Lemma set_ringparam_unfold (ring : ethtool_ringparam) (w : world) :
  ef100_ethtool_set_ringparam cfg ring w =
  let d := net_dev w in
  let efx := priv d in
  if negb (rx_mini_pending ring =? 0) || negb (rx_jumbo_pending ring =? 0)
  then ((- EINVAL)%Z, w)
  else if negb (is_power_of_2 (rx_pending ring)) ||
          negb (is_power_of_2 (tx_pending ring))
  then ((- EINVAL)%Z, logged msg_not_pow2 [] w)
  else if (rx_pending ring =? rxq_entries efx) &&
          (tx_pending ring =? txq_entries efx)
  then (0%Z, w)
  else if supported_bitmap efx =? 0
  then ((- EOPNOTSUPP)%Z, logged msg_not_supported [] w)
  else if negb (rx_pending ring =? 0) &&
          (N.land (guaranteed_bitmap efx) (rx_pending ring) =? 0)
  then ((- ERANGE)%Z, logged msg_rx_range [] w)
  else if negb (tx_pending ring =? 0) &&
          (N.land (guaranteed_bitmap efx) (tx_pending ring) =? 0)
  then ((- ERANGE)%Z, logged msg_tx_range [] w)
  else if busy cfg d
  then ((- EBUSY)%Z, logged msg_busy [open_count efx] w)
  else if is_up_of d then restart (stored ring w)
  else (0%Z, stored ring w).
Proof.
  unfold ef100_ethtool_set_ringparam, bind, get_dev, ret, netif_err, emit,
    modify_efx, dev_close, dev_open, busy, efx_netdev_priv, logged,
    restart, stored.
  cbv zeta. cbn [net_dev trace].
  repeat match goal with
         | |- context [if ?c then _ else _] =>
             destruct c; try reflexivity
         end.
  destruct (dev_open_fn _) as [d' rc]. reflexivity.
Qed.

End SetRingparamFacts.

Lemma legacy_fields_zero (ring : ethtool_ringparam) :
  rx_mini_pending ring = 0 -> rx_jumbo_pending ring = 0 ->
  negb (rx_mini_pending ring =? 0) || negb (rx_jumbo_pending ring =? 0)
  = false.
Proof. intros -> ->. reflexivity. Qed.

Lemma legacy_fields_nonzero (ring : ethtool_ringparam) :
  rx_mini_pending ring <> 0 \/ rx_jumbo_pending ring <> 0 ->
  negb (rx_mini_pending ring =? 0) || negb (rx_jumbo_pending ring =? 0)
  = true.
Proof.
  intros [H|H]; apply N.eqb_neq in H; rewrite H;
    [reflexivity | apply orb_true_r].
Qed.

Lemma differs_from_current (ring : ethtool_ringparam) (efx : efx_nic) :
  ~ (rx_pending ring = rxq_entries efx /\ tx_pending ring = txq_entries efx) ->
  (rx_pending ring =? rxq_entries efx) && (tx_pending ring =? txq_entries efx)
  = false.
Proof.
  intro H.
  destruct (N.eqb_spec (rx_pending ring) (rxq_entries efx)) as [E1|E1];
    [|reflexivity].
  destruct (N.eqb_spec (tx_pending ring) (txq_entries efx)) as [E2|E2];
    [|reflexivity].
  exfalso. apply H. split; assumption.
Qed.

Lemma power_of_2_nonzero (n : N) : is_power_of_2 n = true -> n <> 0.
Proof. intros H ->. discriminate. Qed.

(** Past the no-op test only the device decides. *)
Lemma set_ringparam_past_noop
    (core : NetCore) (cfg : build_config)
    (ring : ethtool_ringparam) (w : world) :
  well_formed_change ring (net_dev w) ->
  ef100_ethtool_set_ringparam cfg ring w =
  let d := net_dev w in
  let efx := priv d in
  if supported_bitmap efx =? 0
  then ((- EOPNOTSUPP)%Z, logged msg_not_supported [] w)
  else if N.land (guaranteed_bitmap efx) (rx_pending ring) =? 0
  then ((- ERANGE)%Z, logged msg_rx_range [] w)
  else if N.land (guaranteed_bitmap efx) (tx_pending ring) =? 0
  then ((- ERANGE)%Z, logged msg_tx_range [] w)
  else if busy cfg d
  then ((- EBUSY)%Z, logged msg_busy [open_count efx] w)
  else if is_up_of d then restart (stored ring w)
  else (0%Z, stored ring w).
Proof.
  intros (Hm & Hj & Hrx & Htx & Hne).
  rewrite set_ringparam_unfold. cbv zeta.
  rewrite (legacy_fields_zero ring Hm Hj), Hrx, Htx.
  rewrite (differs_from_current ring _ Hne).
  apply power_of_2_nonzero, N.eqb_neq in Hrx, Htx. rewrite Hrx, Htx.
  reflexivity.
Qed.

Lemma rings_of_stored (ring : ethtool_ringparam) (w : world) :
  ring_config (stored ring w) = (rx_pending ring, tx_pending ring).
Proof. reflexivity. Qed.

Lemma no_restart_refl (w : world) : no_restart w w.
Proof. exists []. split; reflexivity. Qed.

Lemma no_restart_logged (fmt : string) (args : list N) (w : world) :
  no_restart w (logged fmt args w).
Proof. exists [NetifErr fmt args]. split; reflexivity. Qed.

Lemma sample_change_1024_256 (d : net_device) :
  ring_config (mk_world d []) = (512, 512) ->
  well_formed_change (Sample.request 1024 256) d.
Proof.
  intro H. unfold ring_config in H. simpl in H.
  repeat (split; [reflexivity|]).
  intros [E _]. simpl in E. rewrite <- E in H. discriminate.
Qed.

(** The two scenarios of the bitmap with sizes 256, 1024 and 4096. *)
Example scenario_rx_512_out_of_range :
  fst (ef100_ethtool_set_ringparam (core := Sample.core_ok) Sample.cfg_auxbus
         (Sample.request 512 1024) Sample.w_up) = (- ERANGE)%Z.
Proof. reflexivity. Qed.

Example scenario_1024_256_up :
  ef100_ethtool_set_ringparam (core := Sample.core_ok) Sample.cfg_auxbus
    (Sample.request 1024 256) Sample.w_up
  = (0%Z,
     mk_world
       (mk_net_device (mk_efx_nic 1024 256 Sample.sizes Sample.sizes 1 0%Z)
          true)
       [DevOpen; DevClose]).
Proof. reflexivity. Qed.

Example scenario_query_maximum :
  rx_max_pending
    (ef100_ethtool_get_ringparam (net_dev Sample.w_up) (Sample.request 0 0))
  = 4096.
Proof. reflexivity. Qed.

(** ** The update *)

(** C9: a request with a nonzero mini or jumbo ring size is refused
    with invalid-argument before anything else is examined: whatever
    the device, the build and the other fields are, the result is the
    same, nothing is logged and the device is untouched. *)
Theorem set_ringparam_mini_jumbo
    (core : NetCore) (cfg : build_config)
    (ring : ethtool_ringparam) (w : world) :
  rx_mini_pending ring <> 0 \/ rx_jumbo_pending ring <> 0 ->
  ef100_ethtool_set_ringparam cfg ring w = ((- EINVAL)%Z, w).
Proof.
  intro H. rewrite set_ringparam_unfold. cbv zeta.
  rewrite (legacy_fields_nonzero ring H). reflexivity.
Qed.

Lemma set_ringparam_mini_jumbo_witness :
  (rx_mini_pending (Sample.request_mini 1024 256 64) <> 0 \/
   rx_jumbo_pending (Sample.request_mini 1024 256 64) <> 0) /\
  ef100_ethtool_set_ringparam (core := Sample.core_ok) Sample.cfg_auxbus
    (Sample.request_mini 1024 256 64) Sample.w_up
  = ((- EINVAL)%Z, Sample.w_up).
Proof.
  split.
  - left. discriminate.
  - apply set_ringparam_mini_jumbo. left. discriminate.
Defined.

(** C7: with the mini and jumbo fields zero, a request whose RX or TX
    size is not an exact power of two is refused with invalid-argument;
    the device, and so its ring configuration, is unchanged. *)
Theorem set_ringparam_not_power_of_2
    (core : NetCore) (cfg : build_config)
    (ring : ethtool_ringparam) (w : world) :
  rx_mini_pending ring = 0 -> rx_jumbo_pending ring = 0 ->
  is_power_of_2 (rx_pending ring) = false \/
  is_power_of_2 (tx_pending ring) = false ->
  ef100_ethtool_set_ringparam cfg ring w
  = ((- EINVAL)%Z, logged msg_not_pow2 [] w) /\
  net_dev (snd (ef100_ethtool_set_ringparam cfg ring w)) = net_dev w /\
  ring_config (snd (ef100_ethtool_set_ringparam cfg ring w)) = ring_config w.
Proof.
  intros Hm Hj H.
  assert (E : ef100_ethtool_set_ringparam cfg ring w
              = ((- EINVAL)%Z, logged msg_not_pow2 [] w)).
  { rewrite set_ringparam_unfold. cbv zeta.
    rewrite (legacy_fields_zero ring Hm Hj).
    destruct H as [H|H]; rewrite H;
      [reflexivity | rewrite orb_true_r; reflexivity]. }
  rewrite E. repeat split.
Qed.

Lemma set_ringparam_not_power_of_2_witness :
  rx_mini_pending (Sample.request 1024 768) = 0 /\
  rx_jumbo_pending (Sample.request 1024 768) = 0 /\
  (is_power_of_2 (rx_pending (Sample.request 1024 768)) = false \/
   is_power_of_2 (tx_pending (Sample.request 1024 768)) = false) /\
  fst (ef100_ethtool_set_ringparam (core := Sample.core_ok) Sample.cfg_auxbus
         (Sample.request 1024 768) Sample.w_up) = (- EINVAL)%Z /\
  ring_config
    (snd (ef100_ethtool_set_ringparam (core := Sample.core_ok)
            Sample.cfg_auxbus (Sample.request 1024 768) Sample.w_up))
  = (512, 512).
Proof.
  assert (Hpow : is_power_of_2 (rx_pending (Sample.request 1024 768)) = false \/
                 is_power_of_2 (tx_pending (Sample.request 1024 768)) = false)
    by (right; reflexivity).
  destruct (set_ringparam_not_power_of_2 Sample.core_ok Sample.cfg_auxbus
              (Sample.request 1024 768) Sample.w_up eq_refl eq_refl Hpow)
    as (E & _ & Hcfg).
  split; [reflexivity|]. split; [reflexivity|]. split; [exact Hpow|].
  split.
  - rewrite E. reflexivity.
  - rewrite Hcfg. reflexivity.
Defined.

(** C4: with the mini and jumbo fields zero and both sizes exact powers
    of two, a request equal to the current configuration succeeds with
    0, calls neither close nor open, and leaves the whole state as it
    was, whatever the bitmaps, the open count and the build are. *)
Theorem set_ringparam_noop
    (core : NetCore) (cfg : build_config)
    (ring : ethtool_ringparam) (w : world) :
  rx_mini_pending ring = 0 -> rx_jumbo_pending ring = 0 ->
  is_power_of_2 (rx_pending ring) = true ->
  is_power_of_2 (tx_pending ring) = true ->
  rx_pending ring = rxq_entries (priv (net_dev w)) ->
  tx_pending ring = txq_entries (priv (net_dev w)) ->
  ef100_ethtool_set_ringparam cfg ring w = (0%Z, w) /\
  no_restart w (snd (ef100_ethtool_set_ringparam cfg ring w)).
Proof.
  intros Hm Hj Hrx Htx Erx Etx.
  assert (E : ef100_ethtool_set_ringparam cfg ring w = (0%Z, w)).
  { rewrite set_ringparam_unfold. cbv zeta.
    rewrite (legacy_fields_zero ring Hm Hj), Hrx, Htx.
    rewrite <- Erx, <- Etx, !N.eqb_refl. reflexivity. }
  rewrite E. split; [reflexivity | apply no_restart_refl].
Qed.

Lemma set_ringparam_noop_witness :
  rx_mini_pending (Sample.request 512 512) = 0 /\
  rx_jumbo_pending (Sample.request 512 512) = 0 /\
  is_power_of_2 (rx_pending (Sample.request 512 512)) = true /\
  is_power_of_2 (tx_pending (Sample.request 512 512)) = true /\
  rx_pending (Sample.request 512 512)
  = rxq_entries (priv (net_dev Sample.w_fixed)) /\
  tx_pending (Sample.request 512 512)
  = txq_entries (priv (net_dev Sample.w_fixed)) /\
  ef100_ethtool_set_ringparam (core := Sample.core_ok) Sample.cfg_auxbus
    (Sample.request 512 512) Sample.w_fixed
  = (0%Z, Sample.w_fixed).
Proof.
  repeat (split; [reflexivity|]).
  apply (set_ringparam_noop Sample.core_ok Sample.cfg_auxbus
           (Sample.request 512 512) Sample.w_fixed); reflexivity.
Defined.

(** C5, as stated, fails: on a device whose supported bitmap is zero, a
    request that differs from the current configuration but asks for an
    RX size of 3 is refused with invalid-argument, not with
    not-supported. *)
Lemma unsupported_device_invalid_request :
  supported_bitmap (priv (net_dev Sample.w_fixed)) = 0 /\
  (rx_pending (Sample.request 3 512), tx_pending (Sample.request 3 512))
  <> ring_config Sample.w_fixed /\
  fst (ef100_ethtool_set_ringparam (core := Sample.core_ok) Sample.cfg_auxbus
         (Sample.request 3 512) Sample.w_fixed) = (- EINVAL)%Z /\
  fst (ef100_ethtool_set_ringparam (core := Sample.core_ok) Sample.cfg_auxbus
         (Sample.request 3 512) Sample.w_fixed) <> (- EOPNOTSUPP)%Z.
Proof.
  split; [reflexivity|]. split; [discriminate|].
  split; [reflexivity | discriminate].
Qed.

(** C5, amended: on a device whose supported bitmap is zero, every
    request with the mini and jumbo fields zero and both sizes exact
    powers of two that differs from the current configuration is
    refused with not-supported, the device unchanged. *)
Theorem set_ringparam_not_supported
    (core : NetCore) (cfg : build_config)
    (ring : ethtool_ringparam) (w : world) :
  supported_bitmap (priv (net_dev w)) = 0 ->
  well_formed_change ring (net_dev w) ->
  ef100_ethtool_set_ringparam cfg ring w
  = ((- EOPNOTSUPP)%Z, logged msg_not_supported [] w).
Proof.
  intros Hs Hwf. rewrite (set_ringparam_past_noop core cfg ring w Hwf).
  cbv zeta. rewrite Hs. reflexivity.
Qed.

Lemma set_ringparam_not_supported_witness :
  supported_bitmap (priv (net_dev Sample.w_fixed)) = 0 /\
  well_formed_change (Sample.request 1024 256) (net_dev Sample.w_fixed) /\
  ef100_ethtool_set_ringparam (core := Sample.core_ok) Sample.cfg_auxbus
    (Sample.request 1024 256) Sample.w_fixed
  = ((- EOPNOTSUPP)%Z, logged msg_not_supported [] Sample.w_fixed).
Proof.
  split; [reflexivity|].
  split; [apply sample_change_1024_256; reflexivity|].
  apply set_ringparam_not_supported;
    [reflexivity | apply sample_change_1024_256; reflexivity].
Defined.

(** C6: for a request that passes the mini/jumbo, power-of-two, no-op
    and supported checks, if the nonzero RX size has no bit in the
    guaranteed bitmap the update is refused with out-of-range at the RX
    check; if the RX check passes and the nonzero TX size has no bit in
    the bitmap it is refused with out-of-range at the TX check.  Either
    way the device is unchanged. *)
Theorem set_ringparam_out_of_range
    (core : NetCore) (cfg : build_config)
    (ring : ethtool_ringparam) (w : world) :
  well_formed_change ring (net_dev w) ->
  supported_bitmap (priv (net_dev w)) <> 0 ->
  let g := guaranteed_bitmap (priv (net_dev w)) in
  let rx_absent := rx_pending ring <> 0 /\ N.land g (rx_pending ring) = 0 in
  let tx_absent := tx_pending ring <> 0 /\ N.land g (tx_pending ring) = 0 in
  rx_absent \/ (~ rx_absent /\ tx_absent) ->
  fst (ef100_ethtool_set_ringparam cfg ring w) = (- ERANGE)%Z /\
  net_dev (snd (ef100_ethtool_set_ringparam cfg ring w)) = net_dev w /\
  (rx_absent ->
   ef100_ethtool_set_ringparam cfg ring w
   = ((- ERANGE)%Z, logged msg_rx_range [] w)) /\
  (~ rx_absent ->
   ef100_ethtool_set_ringparam cfg ring w
   = ((- ERANGE)%Z, logged msg_tx_range [] w)).
Proof.
  intros Hwf Hs g rx_absent tx_absent H.
  rewrite (set_ringparam_past_noop core cfg ring w Hwf). cbv zeta.
  apply N.eqb_neq in Hs. rewrite Hs. fold g.
  destruct (N.eqb_spec (N.land g (rx_pending ring)) 0) as [Erx|Erx].
  - repeat split. intro Hn. exfalso. apply Hn. split; [|exact Erx].
    destruct Hwf as (_ & _ & Hrx & _). now apply power_of_2_nonzero.
  - destruct H as [[_ Habs]|[_ [_ Etx]]]; [contradiction|].
    apply N.eqb_eq in Etx. rewrite Etx.
    repeat split. intros [_ Habs]. contradiction.
Qed.

Lemma set_ringparam_out_of_range_witness :
  well_formed_change (Sample.request 1024 2048) (net_dev Sample.w_up) /\
  supported_bitmap (priv (net_dev Sample.w_up)) <> 0 /\
  N.land (guaranteed_bitmap (priv (net_dev Sample.w_up))) 1024 <> 0 /\
  N.land (guaranteed_bitmap (priv (net_dev Sample.w_up))) 2048 = 0 /\
  fst (ef100_ethtool_set_ringparam (core := Sample.core_ok) Sample.cfg_auxbus
         (Sample.request 1024 2048) Sample.w_up) = (- ERANGE)%Z.
Proof.
  assert (Hwf : well_formed_change (Sample.request 1024 2048)
                  (net_dev Sample.w_up)).
  { repeat (split; [reflexivity|]). intros [E _]. discriminate. }
  split; [exact Hwf|].
  split; [discriminate|]. split; [discriminate|]. split; [reflexivity|].
  apply (set_ringparam_out_of_range Sample.core_ok Sample.cfg_auxbus
           (Sample.request 1024 2048) Sample.w_up Hwf).
  - discriminate.
  - right. split.
    + intros [_ E]. discriminate.
    + split; [discriminate | reflexivity].
Defined.

(** C8, as stated, fails: with the busy check compiled in and the
    interface down, a request that passes every earlier check is
    refused with device-busy although the device has exactly one user,
    not more than one. *)
Lemma busy_with_single_user :
  well_formed_change (Sample.request 1024 256) (net_dev Sample.w_down_client) /\
  supported_bitmap (priv (net_dev Sample.w_down_client)) <> 0 /\
  N.land (guaranteed_bitmap (priv (net_dev Sample.w_down_client))) 1024 <> 0 /\
  N.land (guaranteed_bitmap (priv (net_dev Sample.w_down_client))) 256 <> 0 /\
  open_count (priv (net_dev Sample.w_down_client)) = 1 /\
  ~ (1 < open_count (priv (net_dev Sample.w_down_client))) /\
  ef100_ethtool_set_ringparam (core := Sample.core_ok) Sample.cfg_auxbus
    (Sample.request 1024 256) Sample.w_down_client
  = ((- EBUSY)%Z, logged msg_busy [1] Sample.w_down_client).
Proof.
  split; [apply sample_change_1024_256; reflexivity|].
  split; [discriminate|]. split; [discriminate|]. split; [discriminate|].
  split; [reflexivity|]. split; [discriminate | reflexivity].
Qed.

(** C8, amended: for a request that passes the mini/jumbo,
    power-of-two, no-op, supported and bitmap-membership checks, the
    update is refused by the busy check (device-busy returned, the busy
    line logged, the device untouched) if and only if the check is
    compiled into the build and the open count exceeds 1 when the
    interface is up, 0 when it is down. *)
Theorem set_ringparam_busy_iff
    (core : NetCore) (cfg : build_config)
    (ring : ethtool_ringparam) (w : world) :
  well_formed_change ring (net_dev w) ->
  supported_bitmap (priv (net_dev w)) <> 0 ->
  N.land (guaranteed_bitmap (priv (net_dev w))) (rx_pending ring) <> 0 ->
  N.land (guaranteed_bitmap (priv (net_dev w))) (tx_pending ring) <> 0 ->
  ef100_ethtool_set_ringparam cfg ring w
  = ((- EBUSY)%Z, logged msg_busy [open_count (priv (net_dev w))] w)
  <->
  busy_check_compiled cfg = true /\
  (Z.b2z (is_up_of (net_dev w)) < Z.of_N (open_count (priv (net_dev w))))%Z.
Proof.
  intros Hwf Hs Hrx Htx.
  rewrite (set_ringparam_past_noop core cfg ring w Hwf). cbv zeta.
  apply N.eqb_neq in Hs, Hrx, Htx. rewrite Hs, Hrx, Htx.
  unfold busy, efx_netdev_priv.
  rewrite <- Z.ltb_lt, <- andb_true_iff.
  destruct (busy_check_compiled cfg && _)%bool.
  - split; reflexivity.
  - split; [|discriminate].
    destruct (is_up_of (net_dev w)); unfold restart, stored, logged;
      intro E;
      apply (f_equal (fun out => List.length (trace (snd out)))) in E;
      simpl in E; lia.
Qed.

Lemma set_ringparam_busy_iff_witness :
  well_formed_change (Sample.request 1024 256) (net_dev Sample.w_up_client) /\
  supported_bitmap (priv (net_dev Sample.w_up_client)) <> 0 /\
  N.land (guaranteed_bitmap (priv (net_dev Sample.w_up_client))) 1024 <> 0 /\
  N.land (guaranteed_bitmap (priv (net_dev Sample.w_up_client))) 256 <> 0 /\
  ef100_ethtool_set_ringparam (core := Sample.core_ok) Sample.cfg_auxbus
    (Sample.request 1024 256) Sample.w_up_client
  = ((- EBUSY)%Z, logged msg_busy [2] Sample.w_up_client).
Proof.
  assert (Hwf : well_formed_change (Sample.request 1024 256)
                  (net_dev Sample.w_up_client))
    by (apply sample_change_1024_256; reflexivity).
  split; [exact Hwf|].
  split; [discriminate|]. split; [discriminate|]. split; [discriminate|].
  apply (set_ringparam_busy_iff Sample.core_ok Sample.cfg_auxbus
           (Sample.request 1024 256) Sample.w_up_client Hwf);
    try discriminate.
  split; reflexivity.
Defined.

(** C1: a request that passes every check (mini and jumbo zero, both
    sizes exact powers of two, not the current configuration, supported
    bitmap nonzero, both bits in the guaranteed bitmap, busy check not
    firing) has its RX and TX sizes stored.  If the interface was up,
    the update then closes and opens it and returns the open's status;
    nothing is written after the open, so with a close and an open that
    keep the ring sizes the stored sizes stay the requested ones even
    when the open fails.  If the interface was down there is no restart
    and the result is 0. *)
Theorem set_ringparam_applies
    (core : NetCore) (cfg : build_config)
    (ring : ethtool_ringparam) (w : world) :
  well_formed_change ring (net_dev w) ->
  supported_bitmap (priv (net_dev w)) <> 0 ->
  N.land (guaranteed_bitmap (priv (net_dev w))) (rx_pending ring) <> 0 ->
  N.land (guaranteed_bitmap (priv (net_dev w))) (tx_pending ring) <> 0 ->
  busy cfg (net_dev w) = false ->
  let out := ef100_ethtool_set_ringparam cfg ring w in
  ring_config (stored ring w) = (rx_pending ring, tx_pending ring) /\
  (is_up_of (net_dev w) = true ->
   out = restart (stored ring w) /\
   fst out = snd (dev_open_fn (dev_close_fn (net_dev (stored ring w)))) /\
   trace (snd out) = DevOpen :: DevClose :: trace w /\
   (keeps_rings dev_close_fn ->
    keeps_rings (fun d => fst (dev_open_fn d)) ->
    ring_config (snd out) = (rx_pending ring, tx_pending ring))) /\
  (is_up_of (net_dev w) = false ->
   out = (0%Z, stored ring w) /\ trace (snd out) = trace w).
Proof.
  intros Hwf Hs Hrx Htx Hbusy out. subst out.
  rewrite (set_ringparam_past_noop core cfg ring w Hwf). cbv zeta.
  apply N.eqb_neq in Hs, Hrx, Htx. rewrite Hs, Hrx, Htx, Hbusy.
  split; [apply rings_of_stored|].
  split; intro Hup; rewrite Hup.
  - repeat split. intros Hclose Hopen.
    unfold restart, ring_config. cbn [snd net_dev].
    destruct (Hopen (dev_close_fn (net_dev (stored ring w)))) as [Ho1 Ho2].
    destruct (Hclose (net_dev (stored ring w))) as [Hc1 Hc2].
    cbv beta in Ho1, Ho2. rewrite Ho1, Ho2, Hc1, Hc2. reflexivity.
  - split; reflexivity.
Qed.

Lemma set_ringparam_applies_witness :
  well_formed_change (Sample.request 1024 256) (net_dev Sample.w_up) /\
  supported_bitmap (priv (net_dev Sample.w_up)) <> 0 /\
  N.land (guaranteed_bitmap (priv (net_dev Sample.w_up))) 1024 <> 0 /\
  N.land (guaranteed_bitmap (priv (net_dev Sample.w_up))) 256 <> 0 /\
  busy Sample.cfg_auxbus (net_dev Sample.w_up) = false /\
  is_up_of (net_dev Sample.w_up) = true /\
  ef100_ethtool_set_ringparam
    (core := Sample.core_open_fails (- Sample.ENOMEM)) Sample.cfg_auxbus
    (Sample.request 1024 256) Sample.w_up
  = ((- Sample.ENOMEM)%Z,
     mk_world
       (mk_net_device (mk_efx_nic 1024 256 Sample.sizes Sample.sizes 1 0%Z)
          false)
       [DevOpen; DevClose]).
Proof.
  assert (Hwf : well_formed_change (Sample.request 1024 256)
                  (net_dev Sample.w_up))
    by (apply sample_change_1024_256; reflexivity).
  assert (Hs : supported_bitmap (priv (net_dev Sample.w_up)) <> 0)
    by discriminate.
  assert (Hrx : N.land (guaranteed_bitmap (priv (net_dev Sample.w_up))) 1024
                <> 0) by discriminate.
  assert (Htx : N.land (guaranteed_bitmap (priv (net_dev Sample.w_up))) 256
                <> 0) by discriminate.
  repeat (split; [assumption || reflexivity|]).
  destruct (set_ringparam_applies
              (Sample.core_open_fails (- Sample.ENOMEM)) Sample.cfg_auxbus
              (Sample.request 1024 256) Sample.w_up Hwf Hs Hrx Htx eq_refl)
    as (_ & Hup & _).
  destruct (Hup eq_refl) as [E _]. rewrite E. reflexivity.
Defined.

(** C3, as stated, fails: when the interface is up and the open of the
    restart itself fails with the device-busy code, the update returns
    device-busy although the ring sizes were already stored and the
    interface was closed and opened. *)
Lemma validation_code_after_restart :
  let out :=
    ef100_ethtool_set_ringparam
      (core := Sample.core_open_fails (- EBUSY)) Sample.cfg_auxbus
      (Sample.request 1024 256) Sample.w_up in
  fst out = (- EBUSY)%Z /\
  validation_code (fst out) /\
  ring_config Sample.w_up = (512, 512) /\
  ring_config (snd out) = (1024, 256) /\
  trace (snd out) = [DevOpen; DevClose] /\
  ring_config (snd out) <> ring_config Sample.w_up /\
  ~ no_restart Sample.w_up (snd out).
Proof.
  cbv zeta.
  split; [reflexivity|].
  split; [right; right; right; reflexivity|].
  split; [reflexivity|]. split; [reflexivity|]. split; [reflexivity|].
  split; [discriminate|].
  intros (log & Hlog & Hall).
  change (([DevOpen; DevClose] ++ [])%list = (log ++ [])%list) in Hlog.
  apply app_inv_tail in Hlog. subst log. discriminate.
Qed.

(** C3, amended: whenever the update returns a nonzero code, either it
    was refused at a validation check (the code is invalid-argument,
    not-supported, out-of-range or device-busy, the device is exactly
    as before and neither close nor open was called), or the interface
    was up, the sizes were stored, close and open were called and the
    code is the open's status.  Hence a return of one of the four
    validation codes leaves the device unchanged, with no restart,
    whenever the interface was down or the open's status is not itself
    one of those codes. *)
Theorem set_ringparam_failure_modes
    (core : NetCore) (cfg : build_config)
    (ring : ethtool_ringparam) (w : world) :
  let out := ef100_ethtool_set_ringparam cfg ring w in
  fst out <> 0%Z ->
  ((net_dev (snd out) = net_dev w /\ no_restart w (snd out) /\
    validation_code (fst out)) \/
   (is_up_of (net_dev w) = true /\ out = restart (stored ring w))) /\
  (validation_code (fst out) ->
   is_up_of (net_dev w) = false \/
   ~ validation_code (fst (restart (stored ring w))) ->
   net_dev (snd out) = net_dev w /\ no_restart w (snd out)).
Proof.
  intro out. subst out. rewrite set_ringparam_unfold. cbv zeta.
  unfold validation_code.
  repeat match goal with
         | |- context [if ?c then _ else _] =>
             lazymatch c with
             | is_up_of _ => fail
             | _ => destruct c
             end
         end;
    try (cbn [fst snd logged net_dev]; intros _;
         split;
         [left; split; [reflexivity|];
          split; [apply no_restart_logged || apply no_restart_refl | tauto]
         | intros _ _; split;
           [reflexivity | apply no_restart_logged || apply no_restart_refl]]).
  - intro H. exfalso. apply H. reflexivity.
  - destruct (is_up_of (net_dev w)) eqn:Hup.
    + intros _. split.
      * right. split; reflexivity.
      * intros Hcode [Hdown|Hnot]; [discriminate | contradiction].
    + intro H. exfalso. apply H. reflexivity.
Qed.

Lemma set_ringparam_failure_modes_witness :
  let out :=
    ef100_ethtool_set_ringparam (core := Sample.core_ok) Sample.cfg_auxbus
      (Sample.request 1024 2048) Sample.w_up in
  fst out <> 0%Z /\
  validation_code (fst out) /\
  net_dev (snd out) = net_dev Sample.w_up /\
  no_restart Sample.w_up (snd out).
Proof.
  cbv zeta.
  assert (Hnz : fst (ef100_ethtool_set_ringparam (core := Sample.core_ok)
                       Sample.cfg_auxbus (Sample.request 1024 2048)
                       Sample.w_up) <> 0%Z) by discriminate.
  assert (Hcode : validation_code
                    (fst (ef100_ethtool_set_ringparam (core := Sample.core_ok)
                            Sample.cfg_auxbus (Sample.request 1024 2048)
                            Sample.w_up)))
    by (right; right; left; reflexivity).
  split; [exact Hnz|]. split; [exact Hcode|].
  destruct (set_ringparam_failure_modes Sample.core_ok Sample.cfg_auxbus
              (Sample.request 1024 2048) Sample.w_up Hnz) as [_ H].
  apply H; [exact Hcode|].
  right. intros [E|[E|[E|E]]]; discriminate.
Defined.

(** C10: with the mini and jumbo fields zero, a request with a zero RX
    or TX size is refused with invalid-argument at the power-of-two
    check, the device unchanged, so a zero size is never taken as
    leave-unchanged; and the zero-size guards in front of the two
    membership checks never decide: the update equals, on every input,
    the update written without them. *)
Theorem set_ringparam_zero_size
    (core : NetCore) (cfg : build_config)
    (ring : ethtool_ringparam) (w : world) :
  rx_mini_pending ring = 0 -> rx_jumbo_pending ring = 0 ->
  rx_pending ring = 0 \/ tx_pending ring = 0 ->
  ef100_ethtool_set_ringparam cfg ring w
  = ((- EINVAL)%Z, logged msg_not_pow2 [] w) /\
  (forall ring' w',
     ef100_ethtool_set_ringparam cfg ring' w'
     = set_ringparam_unguarded cfg ring' w').
Proof.
  intros Hm Hj Hz. split.
  - rewrite set_ringparam_unfold. cbv zeta.
    rewrite (legacy_fields_zero ring Hm Hj).
    destruct Hz as [-> | ->]; rewrite is_power_of_2_zero;
      [reflexivity | rewrite orb_true_r; reflexivity].
  - intros ring' w'.
    unfold ef100_ethtool_set_ringparam, set_ringparam_unguarded, bind, get_dev.
    cbv zeta.
    destruct (negb (rx_mini_pending ring' =? 0) || _)%bool; [reflexivity|].
    destruct (is_power_of_2 (rx_pending ring')) eqn:Hrx; [|reflexivity].
    destruct (is_power_of_2 (tx_pending ring')) eqn:Htx; [|reflexivity].
    apply power_of_2_nonzero, N.eqb_neq in Hrx, Htx.
    rewrite Hrx, Htx. reflexivity.
Qed.

Lemma set_ringparam_zero_size_witness :
  rx_mini_pending (Sample.request 0 256) = 0 /\
  rx_jumbo_pending (Sample.request 0 256) = 0 /\
  (rx_pending (Sample.request 0 256) = 0 \/
   tx_pending (Sample.request 0 256) = 0) /\
  ef100_ethtool_set_ringparam (core := Sample.core_ok) Sample.cfg_auxbus
    (Sample.request 0 256) Sample.w_down
  = ((- EINVAL)%Z, logged msg_not_pow2 [] Sample.w_down).
Proof.
  split; [reflexivity|]. split; [reflexivity|].
  split; [left; reflexivity|].
  apply (set_ringparam_zero_size Sample.core_ok Sample.cfg_auxbus
           (Sample.request 0 256) Sample.w_down eq_refl eq_refl).
  left. reflexivity.
Defined.

(** ** The update by outcome *)

Lemma validation_code_nonzero (rc : Z) : validation_code rc -> rc <> 0%Z.
Proof. intros [H|[H|[H|H]]] E; rewrite E in H; discriminate. Qed.

Lemma size_guaranteed_intro (g n : N) :
  is_power_of_2 n = true -> (N.land g n =? 0) = false ->
  size_guaranteed g n = true.
Proof. intros H1 H2. unfold size_guaranteed. rewrite H1, H2. reflexivity. Qed.


Lemma set_ringparam_outcome
    (core : NetCore) (cfg : build_config)
    (ring : ethtool_ringparam) (w : world) :
  outcome cfg ring w (ef100_ethtool_set_ringparam cfg ring w).
Proof.
  rewrite set_ringparam_unfold. cbv zeta.
  destruct (negb (rx_mini_pending ring =? 0) ||
            negb (rx_jumbo_pending ring =? 0))%bool eqn:Hlegacy.
  { apply Refused with (log := []);
      [discriminate | left; reflexivity | reflexivity | reflexivity
      | left; reflexivity]. }
  apply orb_false_iff in Hlegacy. destruct Hlegacy as [Hm Hj].
  apply negb_false_iff, N.eqb_eq in Hm, Hj.
  destruct (is_power_of_2 (rx_pending ring)) eqn:Hrx;
    [|apply Refused with (log := [NetifErr msg_not_pow2 []]);
      [discriminate | left; reflexivity | reflexivity | reflexivity
      | right; eauto]].
  destruct (is_power_of_2 (tx_pending ring)) eqn:Htx;
    [|apply Refused with (log := [NetifErr msg_not_pow2 []]);
      [discriminate | left; reflexivity | reflexivity | reflexivity
      | right; eauto]].
  cbn [negb orb].
  destruct (N.eqb_spec (rx_pending ring) (rxq_entries (priv (net_dev w))))
    as [Erx|Erx];
    [destruct (N.eqb_spec (tx_pending ring) (txq_entries (priv (net_dev w))))
       as [Etx|Etx]; [now apply Unchanged|] |]; cbn [andb].
  all: assert (Hwf : well_formed_change ring (net_dev w))
         by (repeat (split; [assumption|]); intros [? ?]; contradiction).
  all: destruct (supported_bitmap (priv (net_dev w)) =? 0) eqn:Hs;
    [apply Refused with (log := [NetifErr msg_not_supported []]);
      [discriminate | right; left; reflexivity | reflexivity | reflexivity
      | right; eauto] |].
  all: rewrite (proj2 (N.eqb_neq _ _) (power_of_2_nonzero _ Hrx)),
         (proj2 (N.eqb_neq _ _) (power_of_2_nonzero _ Htx)); cbn [negb andb].
  all: destruct (N.land _ (rx_pending ring) =? 0) eqn:Hgrx;
    [apply Refused with (log := [NetifErr msg_rx_range []]);
      [discriminate | right; right; left; reflexivity | reflexivity
      | reflexivity | right; eauto] |].
  all: destruct (N.land _ (tx_pending ring) =? 0) eqn:Hgtx;
    [apply Refused with (log := [NetifErr msg_tx_range []]);
      [discriminate | right; right; left; reflexivity | reflexivity
      | reflexivity | right; eauto] |].
  all: destruct (busy cfg (net_dev w)) eqn:Hbusy;
    [apply Refused
       with (log := [NetifErr msg_busy [open_count (priv (net_dev w))]]);
      [discriminate | right; right; right; reflexivity | reflexivity
      | reflexivity | right; eauto] |].
  all: apply Applied;
    [exact Hwf | apply N.eqb_neq; exact Hs
    | now apply size_guaranteed_intro | now apply size_guaranteed_intro
    | exact Hbusy].
Qed.

Lemma rings_after_restart (core : NetCore) (w : world) :
  core_keeps_rings core ->
  ring_config (snd (restart w)) = ring_config w.
Proof.
  intros [Hclose Hopen]. unfold restart, ring_config. cbn [snd net_dev].
  destruct (Hopen (dev_close_fn (net_dev w))) as [Ho1 Ho2].
  destruct (Hclose (net_dev w)) as [Hc1 Hc2].
  cbv beta in Ho1, Ho2. rewrite Ho1, Ho2, Hc1, Hc2. reflexivity.
Qed.

Lemma bitmap_after_restart (core : NetCore) (w : world) :
  core_keeps_bitmap core ->
  guaranteed_bitmap (priv (net_dev (snd (restart w))))
  = guaranteed_bitmap (priv (net_dev w)).
Proof.
  intros [Hclose Hopen]. unfold restart. cbn [snd net_dev].
  pose proof (Hopen (dev_close_fn (net_dev w))) as Ho. cbv beta in Ho.
  rewrite Ho. apply Hclose.
Qed.

(** The ring sizes once the update has gone past its checks. *)
Lemma rings_after_apply
    (core : NetCore) (ring : ethtool_ringparam) (w : world) :
  (is_up_of (net_dev w) = true -> core_keeps_rings core) ->
  ring_config
    (snd (if is_up_of (net_dev w) then restart (stored ring w)
          else (0%Z, stored ring w)))
  = (rx_pending ring, tx_pending ring).
Proof.
  intro Hk. destruct (is_up_of (net_dev w)).
  - rewrite rings_after_restart by (apply Hk; reflexivity).
    apply rings_of_stored.
  - apply rings_of_stored.
Qed.

Lemma rings_guaranteed_of_config (d : net_device) (w' : world) :
  ring_config w' = (rxq_entries (priv d), txq_entries (priv d)) ->
  guaranteed_bitmap (priv (net_dev w')) = guaranteed_bitmap (priv d) ->
  rings_guaranteed (net_dev w') = rings_guaranteed d.
Proof.
  unfold ring_config, rings_guaranteed. intros H Hg.
  inversion H as [[H1 H2]]. rewrite Hg, H1, H2. reflexivity.
Qed.

Lemma sample_core_keeps_rings : core_keeps_rings Sample.core_ok.
Proof. split; intro d; split; reflexivity. Qed.

Lemma sample_core_keeps_bitmap : core_keeps_bitmap Sample.core_ok.
Proof. split; intro d; reflexivity. Qed.


Lemma applied_rings_guaranteed
    (core : NetCore) (ring : ethtool_ringparam) (w : world) :
  (is_up_of (net_dev w) = true ->
   core_keeps_rings core /\ core_keeps_bitmap core) ->
  size_guaranteed (guaranteed_bitmap (priv (net_dev w))) (rx_pending ring)
  = true ->
  size_guaranteed (guaranteed_bitmap (priv (net_dev w))) (tx_pending ring)
  = true ->
  rings_guaranteed
    (net_dev (snd (if is_up_of (net_dev w) then restart (stored ring w)
                   else (0%Z, stored ring w)))) = true.
Proof.
  intros Hk Hrx Htx.
  assert (Hc := rings_after_apply core ring w
                  (fun up => proj1 (Hk up))).
  assert (Hg : guaranteed_bitmap
                 (priv (net_dev
                    (snd (if is_up_of (net_dev w)
                          then restart (stored ring w)
                          else (0%Z, stored ring w)))))
               = guaranteed_bitmap (priv (net_dev w))).
  { destruct (is_up_of (net_dev w)).
    - rewrite bitmap_after_restart by (apply Hk; reflexivity). reflexivity.
    - reflexivity. }
  unfold ring_config in Hc. inversion Hc as [[H1 H2]].
  unfold rings_guaranteed. rewrite Hg, H1, H2, Hrx, Htx. reflexivity.
Qed.

(** ** The query and the update together *)

(** X1: once the update has returned 0, the query reports the requested
    RX and TX sizes as the pending ones (given, when the interface was
    up, a close and an open that leave the ring sizes alone). *)
Theorem query_after_update
    (core : NetCore) (cfg : build_config)
    (ring r0 : ethtool_ringparam) (w : world) :
  (is_up_of (net_dev w) = true -> core_keeps_rings core) ->
  fst (ef100_ethtool_set_ringparam cfg ring w) = 0%Z ->
  let r := ef100_ethtool_get_ringparam
             (net_dev (snd (ef100_ethtool_set_ringparam cfg ring w))) r0 in
  rx_pending r = rx_pending ring /\ tx_pending r = tx_pending ring.
Proof.
  intros Hk H0. cbv zeta.
  unfold ef100_ethtool_get_ringparam, efx_netdev_priv.
  cbn [rx_pending tx_pending].
  pose proof (set_ringparam_outcome core cfg ring w) as O.
  remember (ef100_ethtool_set_ringparam cfg ring w) as out eqn:Eout.
  destruct O as [rc w' log Hnz _ _ _ _ | Hm Hj Hrx Htx Erx Etx | Hwf _ _ _ _].
  - contradiction.
  - split; symmetry; assumption.
  - pose proof (rings_after_apply core ring w Hk) as R.
    unfold ring_config in R. inversion R as [[H1 H2]].
    rewrite H1, H2. split; reflexivity.
Qed.

Lemma query_after_update_witness :
  (is_up_of (net_dev Sample.w_up) = true -> core_keeps_rings Sample.core_ok) /\
  fst (ef100_ethtool_set_ringparam (core := Sample.core_ok) Sample.cfg_auxbus
         (Sample.request 1024 256) Sample.w_up) = 0%Z /\
  rx_pending
    (ef100_ethtool_get_ringparam
       (net_dev (snd (ef100_ethtool_set_ringparam (core := Sample.core_ok)
                        Sample.cfg_auxbus (Sample.request 1024 256)
                        Sample.w_up)))
       (Sample.request 0 0)) = 1024.
Proof.
  split; [intros _; exact sample_core_keeps_rings|].
  split; [reflexivity|].
  apply (query_after_update Sample.core_ok Sample.cfg_auxbus
           (Sample.request 1024 256) (Sample.request 0 0) Sample.w_up
           (fun _ => sample_core_keeps_rings) eq_refl).
Defined.



(** X3: if both stored ring sizes are guaranteed sizes of the device
    (exact powers of two with their bit in the guaranteed bitmap), they
    still are after any call of the update, whatever it returns (given,
    when the interface was up, a close and an open that leave the ring
    sizes and the bitmap alone). *)
Theorem update_keeps_rings_guaranteed
    (core : NetCore) (cfg : build_config)
    (ring : ethtool_ringparam) (w : world) :
  (is_up_of (net_dev w) = true ->
   core_keeps_rings core /\ core_keeps_bitmap core) ->
  rings_guaranteed (net_dev w) = true ->
  rings_guaranteed (net_dev (snd (ef100_ethtool_set_ringparam cfg ring w)))
  = true.
Proof.
  intros Hk Hinv.
  pose proof (set_ringparam_outcome core cfg ring w) as O.
  remember (ef100_ethtool_set_ringparam cfg ring w) as out eqn:Eout.
  destruct O as [rc w' log _ _ Hdev _ _ | | _ _ Hrx Htx _].
  - cbn [snd]. rewrite Hdev. exact Hinv.
  - exact Hinv.
  - now apply applied_rings_guaranteed.
Qed.

Lemma update_keeps_rings_guaranteed_witness :
  (is_up_of (net_dev Wide.w_settled) = true ->
   core_keeps_rings Sample.core_ok /\ core_keeps_bitmap Sample.core_ok) /\
  rings_guaranteed (net_dev Wide.w_settled) = true /\
  rings_guaranteed
    (net_dev (snd (ef100_ethtool_set_ringparam (core := Sample.core_ok)
                     Sample.cfg_auxbus (Sample.request 4096 1024)
                     Wide.w_settled))) = true.
Proof.
  assert (Hk : is_up_of (net_dev Wide.w_settled) = true ->
               core_keeps_rings Sample.core_ok /\
               core_keeps_bitmap Sample.core_ok)
    by (intros _; split;
        [exact sample_core_keeps_rings | exact sample_core_keeps_bitmap]).
  split; [exact Hk|]. split; [reflexivity|].
  apply (update_keeps_rings_guaranteed Sample.core_ok Sample.cfg_auxbus
           (Sample.request 4096 1024) Wide.w_settled Hk eq_refl).
Defined.



(** X5: on an interface that is not up, the update writes nothing but
    the two ring sizes: the supported and guaranteed bitmaps, the open
    count, the disabled status and the running bit are the same after
    every call, whatever it returns. *)
Theorem update_writes_only_rings
    (core : NetCore) (cfg : build_config)
    (ring : ethtool_ringparam) (w : world) :
  is_up_of (net_dev w) = false ->
  same_but_rings (net_dev w)
    (net_dev (snd (ef100_ethtool_set_ringparam cfg ring w))).
Proof.
  intro Hdown.
  pose proof (set_ringparam_outcome core cfg ring w) as O.
  remember (ef100_ethtool_set_ringparam cfg ring w) as out eqn:Eout.
  destruct O as [rc w' log _ _ Hdev _ _ | | _ _ _ _ _].
  - cbn [snd]. rewrite Hdev. repeat split.
  - repeat split.
  - rewrite Hdown. repeat split.
Qed.

Lemma update_writes_only_rings_witness :
  is_up_of (net_dev Sample.w_down) = false /\
  same_but_rings (net_dev Sample.w_down)
    (net_dev (snd (ef100_ethtool_set_ringparam (core := Sample.core_ok)
                     Sample.cfg_auxbus (Sample.request 1024 256)
                     Sample.w_down))).
Proof.
  split; [reflexivity|].
  apply (update_writes_only_rings Sample.core_ok Sample.cfg_auxbus
           (Sample.request 1024 256) Sample.w_down eq_refl).
Defined.

(** X6: a call of the update leaves one of three traces.  Nothing is
    added; or one line is logged, the result is nonzero and the device
    is as before; or the interface is closed and then opened, once
    each, which happens only when the device is not disabled and the
    interface is running, and the result is then the open's status. *)
Theorem update_trace_shape
    (core : NetCore) (cfg : build_config)
    (ring : ethtool_ringparam) (w : world) :
  let out := ef100_ethtool_set_ringparam cfg ring w in
  trace (snd out) = trace w \/
  (exists fmt args,
     trace (snd out) = NetifErr fmt args :: trace w /\
     fst out <> 0%Z /\ net_dev (snd out) = net_dev w) \/
  (trace (snd out) = DevOpen :: DevClose :: trace w /\
   efx_check_disabled (efx_netdev_priv (net_dev w)) = 0%Z /\
   netif_running (net_dev w) = true /\
   fst out = snd (dev_open_fn (dev_close_fn (net_dev (stored ring w))))).
Proof.
  cbv zeta.
  pose proof (set_ringparam_outcome core cfg ring w) as O.
  remember (ef100_ethtool_set_ringparam cfg ring w) as out eqn:Eout.
  destruct O as [rc w' log Hnz _ Hdev Htr [->|(fmt & args & ->)] | | _ _ _ _ _].
  - left. exact Htr.
  - right. left. exists fmt, args. cbn [fst snd]. repeat split; assumption.
  - left. reflexivity.
  - destruct (is_up_of (net_dev w)) eqn:Hup.
    + right. right. unfold is_up_of in Hup.
      apply andb_true_iff in Hup. destruct Hup as [Hd Hr].
      apply Z.eqb_eq in Hd. repeat split; assumption.
    + left. reflexivity.
Qed.

(** ** The advertised maximum *)

Lemma low_bits (g k : N) :
  N.testbit (N.land (N.ones 15) g) k = true <->
  k <= 14 /\ N.testbit g k = true.
Proof.
  rewrite N.land_spec, andb_true_iff.
  destruct (N.le_gt_cases k 14) as [L|L].
  - rewrite N.ones_spec_low by lia. tauto.
  - rewrite N.ones_spec_high by lia.
    split; [intros [? _]; discriminate | lia].
Qed.

Lemma low_bits_log2 (g : N) :
  N.land (N.ones 15) g <> 0 ->
  N.log2 (N.land (N.ones 15) g) <= 14 /\
  N.testbit g (N.log2 (N.land (N.ones 15) g)) = true.
Proof. intro H. apply low_bits, N.bit_log2, H. Qed.

Lemma query_maximum_eq (d : net_device) (r0 : ethtool_ringparam) :
  rx_max_pending (ef100_ethtool_get_ringparam d r0)
  = if N.land (N.ones 15) (guaranteed_bitmap (priv d)) =? 0 then 0
    else 2 ^ N.log2 (N.land (N.ones 15) (guaranteed_bitmap (priv d))).
Proof.
  unfold ef100_ethtool_get_ringparam, efx_netdev_priv.
  cbn [rx_max_pending]. rewrite driver_mask_ones.
  destruct (N.eqb_spec (N.land (N.ones 15) (guaranteed_bitmap (priv d))) 0)
    as [E|E]; cbn [negb]; [reflexivity|].
  rewrite rounddown_pow_of_two_log2 by exact E.
  unfold to_u32. apply N.mod_small.
  apply N.le_lt_trans with (2 ^ 14); [|reflexivity].
  apply N.pow_le_mono_r; [discriminate | apply low_bits_log2, E].
Qed.

Lemma query_maximum_le (d : net_device) (r0 : ethtool_ringparam) :
  rx_max_pending (ef100_ethtool_get_ringparam d r0) <= 2 ^ 14.
Proof.
  rewrite query_maximum_eq.
  destruct (N.eqb_spec (N.land (N.ones 15) (guaranteed_bitmap (priv d))) 0)
    as [E|E]; [apply N.le_0_l|].
  apply N.pow_le_mono_r; [discriminate | apply low_bits_log2, E].
Qed.




(** X8: the update itself does not enforce the ceiling of 16384 the
    query applies.  For a size 2^k above it (14 < k < 32) whose bit is
    in the guaranteed bitmap, on a device that supports changes, is not
    busy and whose interface is not up, the request is applied, after
    which the query reports a pending size larger than the maximum it
    advertises. *)
Theorem update_accepts_size_above_ceiling
    (core : NetCore) (cfg : build_config)
    (r0 : ethtool_ringparam) (w : world) (k : N) :
  14 < k < 32 ->
  N.testbit (guaranteed_bitmap (priv (net_dev w))) k = true ->
  supported_bitmap (priv (net_dev w)) <> 0 ->
  busy cfg (net_dev w) = false ->
  is_up_of (net_dev w) = false ->
  ring_config w <> (2 ^ k, 2 ^ k) ->
  let out := ef100_ethtool_set_ringparam cfg (both_rings (2 ^ k)) w in
  let r := ef100_ethtool_get_ringparam (net_dev (snd out)) r0 in
  out = (0%Z, stored (both_rings (2 ^ k)) w) /\
  rx_pending r = 2 ^ k /\ tx_pending r = 2 ^ k /\
  rx_max_pending r < rx_pending r /\ tx_max_pending r < tx_pending r.
Proof.
  intros Hk Hbit Hs Hbusy Hdown Hne. cbv zeta.
  assert (Hwf : well_formed_change (both_rings (2 ^ k)) (net_dev w)).
  { repeat (split; [reflexivity || apply is_power_of_2_pow2|]).
    intros [E1 E2]. apply Hne. unfold ring_config.
    cbn [rx_pending tx_pending both_rings] in E1, E2.
    rewrite <- E1, <- E2. reflexivity. }
  assert (E : ef100_ethtool_set_ringparam cfg (both_rings (2 ^ k)) w
              = (0%Z, stored (both_rings (2 ^ k)) w)).
  { rewrite (set_ringparam_past_noop core cfg _ w Hwf). cbv zeta.
    cbn [rx_pending tx_pending both_rings].
    rewrite land_pow2_testbit, Hbit.
    apply N.eqb_neq in Hs. rewrite Hs.
    rewrite (proj2 (N.eqb_neq _ _) (pow2_nonzero k)), Hbusy, Hdown.
    reflexivity. }
  rewrite E. split; [reflexivity|].
  pose proof (query_maximum_le
                (net_dev (snd (0%Z, stored (both_rings (2 ^ k)) w))) r0)
    as Hmax.
  assert (Hlt : 2 ^ 14 < 2 ^ k) by (apply N.pow_lt_mono_r; lia).
  unfold ef100_ethtool_get_ringparam in *. cbn [rx_max_pending] in Hmax.
  cbn [rx_pending tx_pending rx_max_pending tx_max_pending].
  repeat split; try reflexivity; eapply N.le_lt_trans; eauto.
Qed.

Lemma update_accepts_size_above_ceiling_witness :
  14 < 15 < 32 /\
  N.testbit (guaranteed_bitmap (priv (net_dev Wide.w_down))) 15 = true /\
  supported_bitmap (priv (net_dev Wide.w_down)) <> 0 /\
  busy Sample.cfg_auxbus (net_dev Wide.w_down) = false /\
  is_up_of (net_dev Wide.w_down) = false /\
  ring_config Wide.w_down <> (2 ^ 15, 2 ^ 15) /\
  ef100_ethtool_set_ringparam (core := Sample.core_ok) Sample.cfg_auxbus
    (both_rings (2 ^ 15)) Wide.w_down
  = (0%Z, stored (both_rings (2 ^ 15)) Wide.w_down).
Proof.
  assert (Hk : 14 < 15 < 32) by lia.
  assert (Hs : supported_bitmap (priv (net_dev Wide.w_down)) <> 0)
    by discriminate.
  assert (Hne : ring_config Wide.w_down <> (2 ^ 15, 2 ^ 15)) by discriminate.
  split; [exact Hk|]. split; [reflexivity|]. split; [exact Hs|].
  split; [reflexivity|]. split; [reflexivity|]. split; [exact Hne|].
  apply (update_accepts_size_above_ceiling Sample.core_ok Sample.cfg_auxbus
           (Sample.request 0 0) Wide.w_down 15 Hk eq_refl Hs eq_refl eq_refl
           Hne).
Defined.

(** X9: the advertised maximum grows with the guaranteed bitmap: if
    every bit of one device's bitmap is also in another's, the first
    device's maximum is at most the second's. *)
Theorem query_maximum_monotone
    (d d' : net_device) (r0 r0' : ethtool_ringparam) :
  N.land (guaranteed_bitmap (priv d)) (guaranteed_bitmap (priv d'))
  = guaranteed_bitmap (priv d) ->
  rx_max_pending (ef100_ethtool_get_ringparam d r0)
  <= rx_max_pending (ef100_ethtool_get_ringparam d' r0').
Proof.
  intro Hsub. rewrite !query_maximum_eq.
  set (g := guaranteed_bitmap (priv d)) in *.
  set (g' := guaranteed_bitmap (priv d')) in *.
  destruct (N.eqb_spec (N.land (N.ones 15) g) 0) as [E|E];
    [apply N.le_0_l|].
  destruct (low_bits_log2 g E) as [Hle Hbit].
  assert (Hbit' : N.testbit (N.land (N.ones 15) g')
                    (N.log2 (N.land (N.ones 15) g)) = true).
  { apply low_bits. split; [exact Hle|].
    pose proof (f_equal
                  (fun x => N.testbit x (N.log2 (N.land (N.ones 15) g)))
                  Hsub) as Hk.
    cbv beta in Hk. rewrite N.land_spec, Hbit in Hk. exact Hk. }
  destruct (N.eqb_spec (N.land (N.ones 15) g') 0) as [E'|E'].
  - rewrite E', N.bits_0 in Hbit'. discriminate.
  - apply N.pow_le_mono_r; [discriminate|].
    destruct (N.le_gt_cases (N.log2 (N.land (N.ones 15) g))
                (N.log2 (N.land (N.ones 15) g'))) as [L|L]; [exact L|].
    apply N.bits_above_log2 in L. congruence.
Qed.

Lemma query_maximum_monotone_witness :
  N.land (guaranteed_bitmap (priv (net_dev Sample.w_down)))
         (guaranteed_bitmap (priv (net_dev Wide.w_down)))
  = guaranteed_bitmap (priv (net_dev Sample.w_down)) /\
  rx_max_pending
    (ef100_ethtool_get_ringparam (net_dev Sample.w_down) (Sample.request 0 0))
  <= rx_max_pending
       (ef100_ethtool_get_ringparam (net_dev Wide.w_down) (Sample.request 0 0)).
Proof.
  split; [reflexivity|].
  apply (query_maximum_monotone (net_dev Sample.w_down) (net_dev Wide.w_down)
           (Sample.request 0 0) (Sample.request 0 0) eq_refl).
Defined.

(** ** The operations table in every build *)

Lemma nodupb_sound (l : list string) : Ops.nodupb l = true -> NoDup l.
Proof.
  induction l as [|x r IH]; intro H; [constructor|].
  cbn [Ops.nodupb] in H. apply andb_true_iff in H. destruct H as [Hx Hr].
  constructor; [|exact (IH Hr)].
  intro Hin. apply negb_true_iff in Hx.
  assert (existsb (String.eqb x) r = true)
    by (apply existsb_exists; exists x; split;
        [exact Hin | apply String.eqb_refl]).
  congruence.
Qed.

Lemma existsb_In (x : string) (l : list string) :
  existsb (String.eqb x) l = true -> In x l.
Proof.
  rewrite existsb_exists. intros (y & Hy & E).
  apply String.eqb_eq in E. now subst.
Qed.

Lemma wired_In (c : Ops.compat_config) (slot : string) :
  Ops.wired c slot = true <-> In slot (Ops.slots c).
Proof.
  unfold Ops.wired. split; [apply existsb_In|].
  intro H. apply existsb_exists. exists slot.
  split; [exact H | apply String.eqb_refl].
Qed.

(** Dropping the head of the shorter list, or adding a head to the
    longer one, keeps a subsequence a subsequence. *)
Lemma subseqb_weaken (m : list string) :
  (forall l x, Ops.subseqb (x :: l) m = true -> Ops.subseqb l m = true) /\
  (forall l y, Ops.subseqb l m = true -> Ops.subseqb l (y :: m) = true).
Proof.
  induction m as [|z m [IHtail IHcons]].
  - split; [intros l x H; discriminate|].
    intros [|x l] y H; [reflexivity | discriminate].
  - assert (Htail : forall l x, Ops.subseqb (x :: l) (z :: m) = true ->
                                Ops.subseqb l (z :: m) = true).
    { intros l x H. cbn [Ops.subseqb] in H.
      destruct (String.eqb x z); [apply IHcons, H | apply IHcons, (IHtail _ _ H)]. }
    split; [exact Htail|].
    intros [|x l] y H; [reflexivity|].
    change (Ops.subseqb (x :: l) (y :: z :: m))
      with (if String.eqb x y then Ops.subseqb l (z :: m)
            else Ops.subseqb (x :: l) (z :: m)).
    destruct (String.eqb x y); [exact (Htail _ _ H) | exact H].
Qed.

Lemma subseqb_app (l1 l2 m1 m2 : list string) :
  Ops.subseqb l1 m1 = true -> Ops.subseqb l2 m2 = true ->
  Ops.subseqb (l1 ++ l2) (m1 ++ m2) = true.
Proof.
  revert l1. induction m1 as [|y m1 IH]; intros l1 H1 H2.
  - destruct l1; [exact H2 | discriminate].
  - destruct l1 as [|x l1].
    + cbn [app]. apply (proj2 (subseqb_weaken _)).
      apply (IH []); [destruct m1; reflexivity | exact H2].
    + cbn [app Ops.subseqb] in *.
      destruct (String.eqb x y);
        [apply IH | apply (IH (x :: l1))]; assumption.
Qed.

(** The first [n] slots of the order serve the first segment, the rest
    the remaining ones. *)
Lemma subseqb_split (n : nat) (l1 l2 m : list string) :
  Ops.subseqb l1 (firstn n m) = true ->
  Ops.subseqb l2 (skipn n m) = true ->
  Ops.subseqb (l1 ++ l2) m = true.
Proof.
  intros H1 H2. rewrite <- (firstn_skipn n m). now apply subseqb_app.
Qed.

Lemma subseqb_In (l m : list string) (x : string) :
  Ops.subseqb l m = true -> In x l -> In x m.
Proof.
  revert l. induction m as [|y m IH]; intros [|z l] H Hin;
    try contradiction; try discriminate.
  cbn [Ops.subseqb] in H.
  destruct (String.eqb_spec z y) as [->|Hne].
  - destruct Hin as [<-|Hin]; [left; reflexivity | right; eauto].
  - right. eauto.
Qed.

Lemma subseqb_NoDup (l m : list string) :
  Ops.subseqb l m = true -> NoDup m -> NoDup l.
Proof.
  revert l. induction m as [|y m IH]; intros [|z l] H Hm;
    try constructor; try discriminate.
  - cbn [Ops.subseqb] in H. inversion Hm as [|? ? Hy Hm']; subst.
    destruct (String.eqb_spec z y) as [->|Hne].
    + intro Hin. apply Hy. eapply subseqb_In; eauto.
    + pose proof (IH _ H Hm') as Hnd. now inversion Hnd.
  - cbn [Ops.subseqb] in H. inversion Hm as [|? ? Hy Hm']; subst.
    destruct (String.eqb_spec z y) as [->|Hne].
    + eauto.
    + pose proof (IH _ H Hm') as Hnd. now inversion Hnd.
Qed.

(** Exposes the segments of the table of a build given by its
    symbols. *)
Ltac expose_table :=
  unfold Ops.own_slots, Ops.assigned, Ops.wired;
  unfold Ops.slots, Ops.ef100_ethtool_ops, Ops.when;
  cbn [Ops.EFX_USE_KCOMPAT Ops.EFX_HAVE_ETHTOOL_RXFH_PARAM
       Ops.EFX_HAVE_CAP_RSS_CTX_SUPPORTED Ops.EFX_HAVE_ETHTOOL_LINKSETTINGS
       Ops.EFX_HAVE_ETHTOOL_FECPARAM Ops.EFX_HAVE_ETHTOOL_SET_PHYS_ID
       Ops.EFX_USE_DEVLINK Ops.EFX_NEED_ETHTOOL_FLASH_DEVICE
       Ops.EFX_HAVE_ETHTOOL_GET_RXFH_INDIR_SIZE
       Ops.EFX_HAVE_ETHTOOL_GET_RXFH_KEY_SIZE
       Ops.EFX_HAVE_CONFIGURABLE_RSS_HASH Ops.EFX_HAVE_ETHTOOL_GET_RXFH
       Ops.EFX_HAVE_ETHTOOL_GET_RXFH_INDIR Ops.EFX_HAVE_ETHTOOL_RXFH_CONTEXT
       Ops.EFX_HAVE_ETHTOOL_GMODULEEEPROM].

(** Decides the conditions left in the goal, one after the other. *)
Ltac decide_conditions :=
  repeat match goal with
         | |- context [if ?c then _ else _] => destruct c
         end.

(** One segment of the table against its share of the slot order. *)
Ltac segment n :=
  apply (subseqb_split n); [decide_conditions; reflexivity | cbn [skipn]].

(** X10: in every combination of the compatibility symbols, the
    initialiser of the operations table assigns no slot twice. *)
Theorem ops_slots_unique (c : Ops.compat_config) : NoDup (Ops.slots c).
Proof.
  apply (subseqb_NoDup _ Ops.slot_order);
    [|apply nodupb_sound; reflexivity].
  destruct c as [k b2 b3 b4 b5 b6 b7 b8 b9 b10 b11 b12 b13 b14 b15].
  expose_table. rewrite !map_app. unfold Ops.slot_order.
  segment 1%nat. segment 11%nat. segment 4%nat. segment 3%nat.
  segment 2%nat. segment 2%nat. segment 1%nat. segment 2%nat.
  segment 1%nat. segment 1%nat. segment 1%nat. segment 1%nat.
  segment 4%nat. segment 2%nat. segment 2%nat.
  reflexivity.
Qed.

(** Finds a slot in one of the segments whose content is decided. *)
Ltac decided_segment :=
  lazymatch goal with
  | |- context [if _ then _ else _] => fail
  | |- _ => apply existsb_In; reflexivity
  end.

Ltac find_slot :=
  repeat match goal with
         | |- In _ (_ ++ _) =>
             apply in_or_app; first [ left; decided_segment | right ]
         end;
  decided_segment.

(** From [H : In s (slots of the table)], one case for each entry the
    slot can be, with the conditions of its segment decided. *)
Ltac slot_cases H :=
  repeat match type of H with
         | In _ (_ ++ _) => apply in_app_or in H; destruct H as [H|H]
         end;
  repeat match type of H with
         | context [if ?c then _ else _] => destruct c
         end;
  cbn [map fst Ops.op In append] in H;
  repeat match type of H with
         | _ \/ _ => destruct H as [H|H]
         end;
  try contradiction; try discriminate H.

(** X11: in every combination of the compatibility symbols, every
    setter slot the table wires, [set_phys_id] apart, has its getter
    slot wired in the same build. *)
Theorem ops_setters_have_getters (c : Ops.compat_config) (x : string) :
  x <> "phys_id" ->
  In ("set_" ++ x) (Ops.slots c) -> In ("get_" ++ x) (Ops.slots c).
Proof.
  intro Hx.
  destruct c as [k b2 b3 b4 b5 b6 b7 b8 b9 b10 b11 b12 b13 b14 b15].
  expose_table. rewrite !map_app. intro H.
  slot_cases H; inversion H; subst;
    try (exfalso; apply Hx; reflexivity);
    find_slot.
Qed.

Lemma ops_setters_have_getters_witness :
  ("rxfh" : string) <> "phys_id" /\
  In ("set_" ++ "rxfh") (Ops.slots Ops.upstream) /\
  In ("get_" ++ "rxfh") (Ops.slots Ops.upstream).
Proof.
  assert (Hx : ("rxfh" : string) <> "phys_id") by discriminate.
  assert (Hin : In ("set_" ++ "rxfh") (Ops.slots Ops.upstream))
    by (apply wired_In; reflexivity).
  split; [exact Hx|]. split; [exact Hin|].
  exact (ops_setters_have_getters Ops.upstream "rxfh" Hx Hin).
Defined.

(** Segments that hold no function of this file, whatever their
    condition. *)
Ltac irrelevant_segments :=
  repeat match goal with
         | |- context [@map ?A ?B ?g
                         (@filter ?T ?f (if ?c then ?a else ?b))] =>
             replace (@map A B g (@filter T f (if c then a else b)))
               with (@nil B)
               by (decide_conditions; reflexivity)
         end.

(** X12: in every combination of the compatibility symbols, the table
    wires the three callbacks of this file, [get_drvinfo],
    [get_ringparam] and [set_ringparam], to their slots, and no other
    slot to a function of this file. *)
Theorem ops_own_handlers (c : Ops.compat_config) :
  Ops.assigned c "get_drvinfo"
  = Some (Ops.Handler "ef100_ethtool_get_drvinfo") /\
  Ops.assigned c "get_ringparam"
  = Some (Ops.Handler "ef100_ethtool_get_ringparam") /\
  Ops.assigned c "set_ringparam"
  = Some (Ops.Handler "ef100_ethtool_set_ringparam") /\
  Ops.own_slots c = ["get_drvinfo"; "get_ringparam"; "set_ringparam"].
Proof.
  destruct c as [k b2 b3 b4 b5 b6 b7 b8 b9 b10 b11 b12 b13 b14 b15].
  expose_table.
  split; [destruct (negb k || b2 && b3)%bool; reflexivity|].
  split; [destruct (negb k || b2 && b3)%bool, (negb k || b4)%bool;
          reflexivity|].
  split; [destruct (negb k || b2 && b3)%bool, (negb k || b4)%bool;
          reflexivity|].
  rewrite !filter_app, !map_app. irrelevant_segments. reflexivity.
Qed.

(** X13: in every combination of the compatibility symbols, exactly one
    of the two link-settings interfaces and exactly one of the two
    identify interfaces is wired, and the receive-hash slots
    [get_rxfh] and [get_rxfh_indir] are never wired together. *)
Theorem ops_alternatives_exclusive (c : Ops.compat_config) :
  (In "get_link_ksettings" (Ops.slots c) <->
   ~ In "get_settings" (Ops.slots c)) /\
  (In "set_link_ksettings" (Ops.slots c) <->
   ~ In "set_settings" (Ops.slots c)) /\
  (In "set_phys_id" (Ops.slots c) <-> ~ In "phys_id" (Ops.slots c)) /\
  ~ (In "get_rxfh" (Ops.slots c) /\ In "get_rxfh_indir" (Ops.slots c)).
Proof.
  destruct c as [k b2 b3 b4 b5 b6 b7 b8 b9 b10 b11 b12 b13 b14 b15].
  expose_table. rewrite !map_app.
  split; [|split; [|split]].
  - split.
    + intros Ha Hb. slot_cases Ha. slot_cases Hb.
    + intro Hn. destruct (negb k || b4)%bool;
        [find_slot | exfalso; apply Hn; find_slot].
  - split.
    + intros Ha Hb. slot_cases Ha. slot_cases Hb.
    + intro Hn. destruct (negb k || b4)%bool;
        [find_slot | exfalso; apply Hn; find_slot].
  - split.
    + intros Ha Hb. slot_cases Ha. slot_cases Hb.
    + intro Hn. destruct (negb k || b6)%bool;
        [find_slot | exfalso; apply Hn; find_slot].
  - intros [Ha Hb]. slot_cases Ha; slot_cases Hb.
Qed.
